(** * The training driver of assignment_2/part1/train.py

    A shallow embedding of the script: [accuracy], [print_config], [train],
    [experiment] and the entry point, over an abstract torch runtime.

    Conventions of the embedding.
    - Python [int] is [Z]; Python and torch floats are exact rationals [Q]
      (rounding is not modelled); [str] is [string] (ASCII).
    - A numpy 1-d array of floats is a [list Q]; a 2-d tensor is a list of
      rows.
    - [config] is one mutable namespace shared by the entry point,
      [experiment] and [train]: it is threaded as state.
    - Every call into torch, numpy or [print] is logged as an [event], in
      program order; exceptions are outcomes.
    - Wall-clock measurements ([time.time]) only feed a printed figure and
      are left out. *)

From Stdlib Require Import ZArith QArith Lqa Lia String Ascii List.
From stdpp Require Import base list strings pretty.

Open Scope Z_scope.

(* ================================================================== *)
(** * Python and numpy primitives *)

Module Py.

(** [str.lower] on ASCII strings. *)
Definition lower_ascii (c : ascii) : ascii :=
  let n := N_of_ascii c in
  if ((65 <=? n) && (n <=? 90))%N then ascii_of_N (n + 32) else c.

Fixpoint lower (s : string) : string :=
  match s with
  | EmptyString => EmptyString
  | String c r => String (lower_ascii c) (lower r)
  end.

(** [bool(s)] for a string: true exactly for the non-empty ones. *)
Definition bool_of_str (s : string) : bool :=
  match s with
  | EmptyString => false
  | String _ _ => true
  end.

(** [str(n)] for an int. *)
Definition str_of_int (n : Z) : string := pretty n.

(** [range(start, stop, step)] for a positive [step]. *)
Definition range (start stop step : Z) : list Z :=
  map (fun i => start + Z.of_nat i * step)
      (seq 0 (Z.to_nat ((stop - start + step - 1) / step))).

(** The bound of a slice, as [slice.indices] normalises it: a negative
    index counts from the end, and the result is clipped to [0, len]. *)
Definition clip_index (len i : Z) : Z :=
  if i <? 0 then Z.max (i + len) 0 else Z.min i len.

(** [a[start:stop]] *)
Definition slice {A : Type} (a : list A) (start stop : Z) : list A :=
  let len := Z.of_nat (length a) in
  let lo := clip_index len start in
  let hi := clip_index len stop in
  take (Z.to_nat (hi - lo)) (drop (Z.to_nat lo) a).

(** [a.sum()] *)
Definition sum (a : list Q) : Q := fold_right Qplus 0%Q a.

(** [argmax]: the index of the first maximal entry (numpy and torch
    agree on this). *)
Fixpoint argmax_from (best_i : nat) (best : Q) (i : nat) (a : list Q) : nat :=
  match a with
  | [] => best_i
  | x :: r =>
      if Qle_bool x best then argmax_from best_i best (S i) r
      else argmax_from i x (S i) r
  end.

Definition argmax (a : list Q) : nat :=
  match a with
  | [] => 0%nat
  | x :: r => argmax_from 0 x 1 r
  end.

End Py.

(* ================================================================== *)
(** * Values, configuration, events *)

(** The values that end up in the statistics dictionaries. *)
#[warnings="-register-all"]
Inductive pyval : Type :=
| VInt (n : Z)
| VFloat (q : Q)
| VStr (s : string)
| VBool (b : bool)
| VArray (a : list Q)
| VDict (d : list (string * pyval))
| VList (l : list pyval).

(** A [dict] keeps insertion order; assigning an existing key replaces the
    value in place. *)
Definition dict : Type := list (string * pyval).

Fixpoint dict_set (d : dict) (k : string) (v : pyval) : dict :=
  match d with
  | [] => [(k, v)]
  | (k', v') :: r =>
      if String.eqb k' k then (k, v) :: r else (k', v') :: dict_set r k v
  end.

Fixpoint dict_get (d : dict) (k : string) : option pyval :=
  match d with
  | [] => None
  | (k', v') :: r => if String.eqb k' k then Some v' else dict_get r k
  end.

(** The namespace [parse_args] returns, one field per [add_argument]. *)
Record Config : Type := mkConfig {
  model_type : string;
  input_length : Z;
  input_dim : Z;
  num_classes : Z;
  num_hidden : Z;
  batch_size : Z;
  learning_rate : Q;
  train_steps : Z;
  max_norm : Q;
  device : string;
  experiment_flag : bool;      (* config.experiment *)
  print_every : Z
}.

Definition set_model_type (c : Config) (s : string) : Config :=
  mkConfig s (input_length c) (input_dim c) (num_classes c) (num_hidden c)
           (batch_size c) (learning_rate c) (train_steps c) (max_norm c)
           (device c) (experiment_flag c) (print_every c).

Definition set_input_length (c : Config) (n : Z) : Config :=
  mkConfig (model_type c) n (input_dim c) (num_classes c) (num_hidden c)
           (batch_size c) (learning_rate c) (train_steps c) (max_norm c)
           (device c) (experiment_flag c) (print_every c).

(** [vars(config).items()], in the order the arguments are declared. *)
Definition vars (c : Config) : list (string * pyval) :=
  [ ("model_type", VStr (model_type c));
    ("input_length", VInt (input_length c));
    ("input_dim", VInt (input_dim c));
    ("num_classes", VInt (num_classes c));
    ("num_hidden", VInt (num_hidden c));
    ("batch_size", VInt (batch_size c));
    ("learning_rate", VFloat (learning_rate c));
    ("train_steps", VInt (train_steps c));
    ("max_norm", VFloat (max_norm c));
    ("device", VStr (device c));
    ("experiment", VBool (experiment_flag c));
    ("print_every", VInt (print_every c)) ].

Inductive torch_device : Type := cpu | cuda.

Inductive model_class : Type := VanillaRNN | LSTM | RRN.

(** The keyword arguments of the three model constructors. *)
Record ctor_args : Type := mkArgs {
  seq_length : Z;
  arg_input_dim : Z;
  arg_num_hidden : Z;
  arg_num_classes : Z;
  arg_batch_size : Z;
  arg_device : torch_device
}.

Definition tensor2 : Type := list (list Q).
Definition batch : Type := (tensor2 * list Z)%type.

Inductive printed : Type :=
| Config_entry (key : string) (value : pyval)   (* key + ' : ' + str(value) *)
| Step_report (step : nat) (acc : Q)            (* the "[..] Train Step" line *)
| Sample (step : nat)                           (* the "x: .., y_pred: .." line *)
| Done_training.

(** One event per call that leaves the script, recorded when the call is
    made: [Loader] and [Optimizer] are in the log also when the call
    raises.  [Np_save] carries the source line of its call site. *)
Inductive event : Type :=
| Print (p : printed)
| Construct (cls : model_class) (args : ctor_args)
| Dataset (seq_len : Z)                         (* PalindromeDataset(seq_len) *)
| Loader (batch_sz num_workers : Z)             (* DataLoader(dataset, ..) is called *)
| Criterion                                     (* torch.nn.CrossEntropyLoss() *)
| Optimizer (lr : Q)                            (* torch.optim.RMSprop(..) is called *)
| Draw (step : nat) (b : batch)                 (* the loader yields a batch *)
| Forward (x y_pred : tensor2)                  (* model.forward(x) *)
| Loss (y_pred : tensor2) (y_true : list Z)     (* criterion(y_pred, y_true) *)
| Zero_grad                                     (* optimizer.zero_grad() *)
| Backward                                      (* loss.backward() *)
| Clip_grad_norm (bound : Q)                    (* clip_grad_norm_(.., max_norm) *)
| Optimizer_step                                (* optimizer.step() *)
| Set_acc (step : nat) (acc : Q)                (* train_acc[step] = acc *)
| Torch_save (file : string)
| Np_save (line : nat) (file : string) (data : pyval).

Inductive exn : Type :=
| AssertionError
| IndexError
| ValueError
| ZeroDivisionError
| TypeError
| UnboundLocalError.

(* ================================================================== *)
(** * The monad of the script: shared config, event log, exceptions *)

Inductive outcome (A : Type) : Type :=
| Return (a : A)
| Raise (e : exn).
Arguments Return {A} a.
Arguments Raise {A} e.

(** A computation reads and updates the shared [config] and yields its
    outcome with the events it emitted. *)
Definition Run (A : Type) : Type := Config -> outcome A * Config * list event.

Definition ret {A : Type} (a : A) : Run A := fun c => (Return a, c, []).

Definition bind {A B : Type} (m : Run A) (k : A -> Run B) : Run B :=
  fun c =>
    match m c with
    | (Return a, c1, l1) =>
        match k a c1 with
        | (r, c2, l2) => (r, c2, l1 ++ l2)
        end
    | (Raise e, c1, l1) => (Raise e, c1, l1)
    end.

Definition raise {A : Type} (e : exn) : Run A := fun c => (Raise e, c, []).
Definition emit (e : event) : Run unit := fun c => (Return tt, c, [e]).
Definition get_config : Run Config := fun c => (Return c, c, []).
Definition put_config (c' : Config) : Run unit := fun _ => (Return tt, c', []).

Declare Scope run_scope.
Delimit Scope run_scope with run.
Notation "x <- m ;; k" := (bind m (fun x => k))
  (at level 100, m at next level, right associativity) : run_scope.
Notation "m ;;; k" := (bind m (fun _ => k))
  (at level 100, right associativity) : run_scope.
Open Scope run_scope.

Definition outcome_of {A : Type} (r : outcome A * Config * list event) : outcome A :=
  r.1.1.
Definition config_of {A : Type} (r : outcome A * Config * list event) : Config :=
  r.1.2.
Definition log_of {A : Type} (r : outcome A * Config * list event) : list event :=
  r.2.

(** The result of one pass through a loop body. *)
Inductive control (V : Type) : Type :=
| Continue (v : V)
| Break (v : V).
Arguments Continue {V} v.
Arguments Break {V} v.

(** [for step, x in enumerate(xs): body], with [break]. *)
Fixpoint for_enumerate {A V : Type} (body : nat -> A -> V -> Run (control V))
    (step : nat) (xs : list A) (v : V) : Run V :=
  match xs with
  | [] => ret v
  | x :: rest =>
      c <- body step x v ;;
      match c with
      | Break v' => ret v'
      | Continue v' => for_enumerate body (S step) rest v'
      end
  end.

(** [for x in xs: body], the loop of [experiment]. *)
Fixpoint for_each {A V : Type} (body : A -> V -> Run V) (xs : list A) (v : V) : Run V :=
  match xs with
  | [] => ret v
  | x :: rest => v' <- body x v ;; for_each body rest v'
  end.

(* ================================================================== *)
(** * The torch runtime

    The models, the dataset, the loss, autograd and the optimizer are
    supplied from outside the script.  They are an interface here: a model
    object (its parameters and their gradients), the optimizer's running
    statistics and a loss value are abstract, and the operations the script
    calls on them are functions.  [optimizer.zero_grad()], [loss.backward()],
    [clip_grad_norm_] and [optimizer.step()] all act on the parameters the
    model and the optimizer share, so each takes and returns the model.

    The operations of the interface return.  The two checks of torch on
    values of the configuration itself, the batch size [DataLoader]
    accepts and the learning rate [RMSprop] accepts, are written out in
    [DataLoader] and [RMSprop] below. *)

Class Torch : Type := {
  nn_module : Type;
  optim : Type;
  loss_t : Type;
  cuda_is_available : bool;                       (* torch.cuda.is_available() *)
  construct : model_class -> ctor_args -> nn_module;
  (** the batches [DataLoader(PalindromeDataset(seq_len), batch_size,
      num_workers=..)] yields, in order, for a positive [batch_size] *)
  data_loader : Z -> Z -> Z -> list batch;
  forward : nn_module -> tensor2 -> tensor2;
  criterion : tensor2 -> list Z -> loss_t;
  (** the optimizer [torch.optim.RMSprop(model.parameters(), lr=..)]
      builds, for a learning rate that is not negative *)
  rmsprop : nn_module -> Q -> optim;
  zero_grad : optim -> nn_module -> nn_module;
  backward : loss_t -> nn_module -> nn_module;
  clip_grad_norm_ : Q -> nn_module -> nn_module;
  optimizer_step : optim -> nn_module -> optim * nn_module
}.

(* ================================================================== *)
(** * train.py *)

(** [torch.sum(predictions.argmax(dim=1) == label)]: the comparison is
    elementwise over the batch, and the sum counts its true entries.
    [predictions] has one row of class scores per example and [label] one
    entry per example of the same batch, so the two have the same length;
    for other shapes torch broadcasts or raises, which is not modelled. *)
Definition count_correct (predictions : tensor2) (label : list Z) : Z :=
  fold_right Z.add 0
    (zip_with (fun row y => if Z.of_nat (Py.argmax row) =? y then 1 else 0)
              predictions label).

(** [accuracy(predictions, label, config)].  The division is exact here;
    with [batch_size = 0] torch yields nan or inf where [Q] yields 0, so
    the statements on the value of an accuracy take [batch_size > 0]. *)
Definition accuracy (predictions : tensor2) (label : list Z) (config : Config) : Q :=
  (inject_Z (count_correct predictions label) / inject_Z (batch_size config))%Q.

(** [print_config(config)] *)
Definition print_config : Run unit :=
  config <- get_config ;;
  for_each (fun kv (_ : unit) => emit (Print (Config_entry kv.1 kv.2)))
           (vars config) tt.

(** [assert cond] *)
Definition assert (cond : bool) : Run unit :=
  if cond then ret tt else raise AssertionError.

(** [np.zeros(n)] *)
Definition np_zeros (n : Z) : Run (list Q) :=
  if n <? 0 then raise ValueError else ret (replicate (Z.to_nat n) 0%Q).

(** [a[i] = v] for an index [i >= 0] *)
Definition setitem (a : list Q) (i : nat) (v : Q) : Run (list Q) :=
  if (i <? length a)%nat then emit (Set_acc i v) ;;; ret (<[i := v]> a)
  else raise IndexError.

(** [a[-1]] *)
Definition getitem_last (a : list Q) : Run Q :=
  match last a with
  | Some v => ret v
  | None => raise IndexError
  end.

(** [step % m == 0] *)
Definition divides (m : Z) (step : nat) : Run bool :=
  if m =? 0 then raise ZeroDivisionError
  else ret (Z.of_nat step mod m =? 0).

Section Script.

Context `{Torch}.

(** [DataLoader(dataset, batch_size, num_workers=0)] over
    [PalindromeDataset(seq_len)]: the constructor raises ValueError for a
    batch size that is not positive. *)
Definition DataLoader (seq_len batch_size : Z) : Run (list batch) :=
  emit (Loader batch_size 0) ;;;
  if batch_size <=? 0 then raise ValueError
  else ret (data_loader seq_len batch_size 0).

(** [torch.optim.RMSprop(model.parameters(), lr=lr)]: the constructor
    raises ValueError for a negative learning rate (and for a model
    without parameters, which none of the three models is). *)
Definition RMSprop (model : nn_module) (lr : Q) : Run optim :=
  emit (Optimizer lr) ;;;
  if Qle_bool 0 lr then ret (rmsprop model lr) else raise ValueError.

(** The local variables the training loop updates. *)
Record loop_vars : Type := mkVars {
  the_model : nn_module;
  the_optimizer : optim;
  the_train_acc : list Q
}.

(** [acc_MA = train_acc[step-4:step+1].sum()/5] *)
Definition moving_average (train_acc : list Q) (step : nat) : Q :=
  (Py.sum (Py.slice train_acc (Z.of_nat step - 4) (Z.of_nat step + 1)) / 5)%Q.

(** The body of the loop over the data loader (lines 106-154). *)
Definition train_step (config : Config) (step : nat) (b : batch)
    (v : loop_vars) : Run (control loop_vars) :=
  let '(batch_inputs, batch_targets) := b in
  emit (Draw step b) ;;;
  let x := batch_inputs in
  let y_true := batch_targets in
  (* Forward pass *)
  let y_pred := forward (the_model v) x in
  emit (Forward x y_pred) ;;;
  let loss := criterion y_pred y_true in
  emit (Loss y_pred y_true) ;;;
  (* Backward pass *)
  let m := zero_grad (the_optimizer v) (the_model v) in
  emit Zero_grad ;;;
  let m := backward loss m in
  emit Backward ;;;
  let m := clip_grad_norm_ (max_norm config) m in
  emit (Clip_grad_norm (max_norm config)) ;;;
  let '(o, m) := optimizer_step (the_optimizer v) m in
  emit Optimizer_step ;;;
  train_acc <- setitem (the_train_acc v) step (accuracy y_pred y_true config) ;;
  report <- divides (print_every config) step ;;
  (if report : bool then
     emit (Print (Step_report step (nth step train_acc 0%Q))) ;;;
     emit (Print (Sample step))
   else ret tt) ;;;
  let acc_MA := moving_average train_acc step in
  if (Z.of_nat step =? train_steps config) || Qeq_bool acc_MA 1
  then ret (Break (mkVars m o train_acc))
  else ret (Continue (mkVars m o train_acc)).

(** The statistics [train] returns in experiment mode (lines 162-169). *)
Definition make_stats (train_acc : list Q) : Run dict :=
  let stats : dict := [] in
  last_acc <- getitem_last train_acc ;;
  let stats := dict_set stats "last acc" (VFloat last_acc) in
  let first_best_acc := Py.argmax train_acc in
  let stats := dict_set stats "best acc" (VFloat (nth first_best_acc train_acc 0%Q)) in
  let stats := dict_set stats "step best acc" (VInt (Z.of_nat first_best_acc)) in
  let stats := dict_set stats "num steps" (VInt (Z.of_nat (length train_acc))) in
  let stats := dict_set stats "accs" (VArray train_acc) in
  ret stats.

(** [train(config)] *)
Definition train : Run (option dict) :=
  print_config ;;;
  config <- get_config ;;
  put_config (set_model_type config (Py.lower (model_type config))) ;;;
  config <- get_config ;;
  assert (existsb (String.eqb (model_type config)) ["rnn"; "lstm"; "rrn"]) ;;;
  (* Initialize the device which to run the model on *)
  let wanted_device := Py.lower (device config) in
  let device :=
    if String.eqb wanted_device "cuda"
    then (if cuda_is_available then cuda else cpu)
    else cpu in
  (* Initialize the model that we are going to use *)
  let args := mkArgs (input_length config) (input_dim config) (num_hidden config)
                     (num_classes config) (batch_size config) device in
  model <-
    (if String.eqb (model_type config) "rnn" then
       emit (Construct VanillaRNN args) ;;; ret (Some (construct VanillaRNN args))
     else if String.eqb (model_type config) "lstm" then
       emit (Construct LSTM args) ;;; ret (Some (construct LSTM args))
     else if String.eqb (model_type config) "rrn" then
       emit (Construct RRN args) ;;; ret (Some (construct RRN args))
     else ret None) ;;
  (* Initialize the dataset and data loader (note the +1) *)
  emit (Dataset (input_length config + 1)) ;;;
  loader <- DataLoader (input_length config + 1) (batch_size config) ;;
  (* Setup the loss and optimizer *)
  emit Criterion ;;;
  model <- match model with Some m => ret m | None => raise UnboundLocalError end ;;
  optimizer <- RMSprop model (learning_rate config) ;;
  (* keep stats *)
  train_acc <- np_zeros (train_steps config + 1) ;;
  v <- for_enumerate (train_step config) 0 loader (mkVars model optimizer train_acc) ;;
  emit (Print Done_training) ;;;
  (* Save the final model *)
  emit (Torch_save (model_type config ++ "_model.pt")) ;;;
  emit (Np_save 159 ("train_acc_" ++ model_type config ++ Py.str_of_int (input_length config))
                (VArray (the_train_acc v))) ;;;
  if experiment_flag config then
    stats <- make_stats (the_train_acc v) ;;
    ret (Some stats)
  else ret None.

(** One pass of the sweep (lines 182-189). *)
Definition experiment_step (end_ : Z) (sl : Z) (stats : list dict) : Run (list dict) :=
  config <- get_config ;;
  put_config (set_input_length config sl) ;;;
  r <- train ;;
  (* stats.append(train(config)); the item assignments need a dict *)
  config <- get_config ;;
  d <- match r with
       | Some d =>
           ret (fold_left (fun d kv => dict_set d kv.1 kv.2) (vars config) d)
       | None => raise TypeError
       end ;;
  let stats := stats ++ [d] in
  (* save results *)
  emit (Np_save 189 ("experiment_stats_500" ++ model_type config ++ Py.str_of_int end_)
                (VList (map VDict stats))) ;;;
  ret stats.

(** [experiment(config)] *)
Definition experiment : Run unit :=
  let start := 50 in
  let end_ := 500 in
  let step := 50 in
  for_each (experiment_step end_) (Py.range start (end_ + 1) step) [] ;;;
  ret tt.

(** [type=bool, default=True]: what argparse stores for [--experiment],
    given the string passed on the command line, if any. *)
Definition parse_experiment (given : option string) : bool :=
  match given with
  | None => true
  | Some s => Py.bool_of_str s
  end.

(** [parser.parse_args()].  [parsed] holds the other options as argparse
    converted them; [given] is the string passed for [--experiment]. *)
Definition parse_args (parsed : Config) (given : option string) : Config :=
  mkConfig (model_type parsed) (input_length parsed) (input_dim parsed)
           (num_classes parsed) (num_hidden parsed) (batch_size parsed)
           (learning_rate parsed) (train_steps parsed) (max_norm parsed)
           (device parsed) (parse_experiment given) (print_every parsed).

(** The entry point. *)
Definition main (parsed : Config) (given : option string) :
    outcome unit * Config * list event :=
  let config := parse_args parsed given in
  (* Train the model *)
  (if experiment_flag config then experiment
   else train ;;; ret tt) config.

End Script.

(* ================================================================== *)
(** * A small runtime to run the script on

    The model is the number of optimizer steps taken so far; what it
    predicts and what the loader yields are given. *)

Definition toy (batches : list batch) (predict : nat -> tensor2 -> tensor2)
    (cuda_ok : bool) : Torch :=
  {| nn_module := nat;
     optim := unit;
     loss_t := unit;
     cuda_is_available := cuda_ok;
     construct := fun _ _ => 0%nat;
     data_loader := fun _ _ _ => batches;
     forward := predict;
     criterion := fun _ _ => tt;
     rmsprop := fun _ _ => tt;
     zero_grad := fun _ m => m;
     backward := fun _ m => m;
     clip_grad_norm_ := fun _ m => m;
     optimizer_step := fun o m => (o, S m) |}.

(** A batch of two sequences with their labels, and two predictors: one
    always right on it, one right on the first example only. *)
Definition two_examples : batch := ([[1; 2]; [3; 0]]%Q, [2; 0]).

Definition always_right (_ : nat) (_ : tensor2) : tensor2 :=
  [[0; 0; 1]; [1; 0; 0]]%Q.

Definition half_right (_ : nat) (_ : tensor2) : tensor2 :=
  [[0; 0; 1]; [0; 1; 0]]%Q.

Definition default_config : Config :=
  mkConfig "RRN" 10 1 10 128 128 (1 # 1000) 10000 10 "cpu" true 100.

(** The defaults with two examples per batch and few steps. *)
Definition small_config (mt : string) (steps : Z) : Config :=
  mkConfig mt 10 1 3 4 2 (1 # 1000) steps 10 "cpu" true 100.

(* ================================================================== *)
(** * Vocabulary of the statements *)

(** [config] as [train] leaves it: the model type in lower case. *)
Definition lowered (cfg : Config) : Config :=
  set_model_type cfg (Py.lower (model_type cfg)).

(** The lines [print_config] prints. *)
Definition config_lines (cfg : Config) : list event :=
  map (fun kv => Print (Config_entry kv.1 kv.2)) (vars cfg).

(** What is done with one batch, up to the recording of its accuracy. *)
Definition batch_ops (cfg : Config) (step : nat) (b : batch) (y_pred : tensor2) :
    list event :=
  [ Draw step b;
    Forward b.1 y_pred;
    Loss y_pred b.2;
    Zero_grad;
    Backward;
    Clip_grad_norm (max_norm cfg);
    Optimizer_step;
    Set_acc step (accuracy y_pred b.2 cfg) ].

(** The two lines printed every [print_every] steps (none is printed when
    [print_every] is 0: the test itself raises). *)
Definition report_lines (cfg : Config) (step : nat) (acc : Q) : list event :=
  if print_every cfg =? 0 then []
  else if Z.of_nat step mod print_every cfg =? 0
  then [Print (Step_report step acc); Print (Sample step)]
  else [].

(** The events of a sequence of fully processed batches, each with the
    prediction made for it, numbered from [step]. *)
Fixpoint loop_log (cfg : Config) (step : nat) (done : list (batch * tensor2)) :
    list event :=
  match done with
  | [] => []
  | (b, y_pred) :: rest =>
      batch_ops cfg step b y_pred
        ++ report_lines cfg step (accuracy y_pred b.2 cfg)
        ++ loop_log cfg (S step) rest
  end.

(** The same without the printed lines. *)
Fixpoint batch_blocks (cfg : Config) (step : nat) (done : list (batch * tensor2)) :
    list event :=
  match done with
  | [] => []
  | (b, y_pred) :: rest => batch_ops cfg step b y_pred ++ batch_blocks cfg (S step) rest
  end.

(** The batches [bs] drawn from the loader, numbered from [step]. *)
Fixpoint draw_events (step : nat) (bs : list batch) : list event :=
  match bs with
  | [] => []
  | b :: rest => Draw step b :: draw_events (S step) rest
  end.

(** The accuracies of processed batches. *)
Definition accuracies (cfg : Config) (done : list (batch * tensor2)) : list Q :=
  map (fun p => accuracy p.2 p.1.2 cfg) done.

Definition is_batch_event (e : event) : bool :=
  match e with
  | Draw _ _ | Forward _ _ | Loss _ _ | Zero_grad | Backward
  | Clip_grad_norm _ | Optimizer_step | Set_acc _ _ => true
  | _ => false
  end.

Definition is_print (e : event) : bool :=
  match e with Print _ => true | _ => false end.

Definition is_construct (e : event) : bool :=
  match e with Construct _ _ => true | _ => false end.

Definition is_data_event (e : event) : bool :=
  match e with Dataset _ | Loader _ _ | Draw _ _ => true | _ => false end.

Definition is_save (e : event) : bool :=
  match e with Torch_save _ | Np_save _ _ _ => true | _ => false end.

(** The events of the loop over the data loader. *)
Definition is_loop_event (e : event) : bool :=
  match e with
  | Print (Step_report _ _) | Print (Sample _) => true
  | _ => is_batch_event e
  end.

Definition zeros (k : nat) : list Q := replicate k 0%Q.

(** The accuracy array of length [n] right after the write at [step],
    when [accs] are the accuracies recorded from step 0 on. *)
Definition array_at (n : nat) (accs : list Q) (step : nat) : list Q :=
  take (S step) accs ++ zeros (n - S step).

(** The accuracies written into the array, in the order of the writes. *)
Definition recorded_accs (log : list event) : list Q :=
  omap (fun e => match e with Set_acc _ a => Some a | _ => None end) log.

(** The lengths the sweep goes through. *)
Definition sweep_lengths : list Z := [50; 100; 150; 200; 250; 300; 350; 400; 450; 500].

(** [0 <= q <= 1] *)
Definition unit_range (q : Q) : Prop := (0 <= q)%Q /\ (q <= 1)%Q.

(** The number of examples whose predicted class is the target label. *)
Definition correct_predictions (predictions : tensor2) (label : list Z) : nat :=
  length (filter (fun ry => Z.of_nat (Py.argmax ry.1) = ry.2) (zip predictions label)).

(** The model class a lower-case model type selects. *)
Definition class_of (mt : string) : option model_class :=
  if String.eqb mt "rnn" then Some VanillaRNN
  else if String.eqb mt "lstm" then Some LSTM
  else if String.eqb mt "rrn" then Some RRN
  else None.

(** The dictionary [train] builds from the accuracy array and its last
    entry. *)
Definition stats_of (train_acc : list Q) (last_acc : Q) : dict :=
  [ ("last acc", VFloat last_acc);
    ("best acc", VFloat (nth (Py.argmax train_acc) train_acc 0%Q));
    ("step best acc", VInt (Z.of_nat (Py.argmax train_acc)));
    ("num steps", VInt (Z.of_nat (length train_acc)));
    ("accs", VArray train_acc) ].

(** What [train] emits between the loop and its return. *)
Definition finish_log (cfg : Config) (train_acc : list Q) : list event :=
  [ Print Done_training;
    Torch_save (model_type cfg ++ "_model.pt");
    Np_save 159 ("train_acc_" ++ model_type cfg ++ Py.str_of_int (input_length cfg))
            (VArray train_acc) ].

Section Vocabulary.

Context `{Torch}.

(** The device [train] selects. *)
Definition selected_device (cfg : Config) : torch_device :=
  if String.eqb (Py.lower (device cfg)) "cuda"
  then (if cuda_is_available then cuda else cpu)
  else cpu.

(** The arguments every model constructor is called with. *)
Definition model_args (cfg : Config) : ctor_args :=
  mkArgs (input_length cfg) (input_dim cfg) (num_hidden cfg) (num_classes cfg)
         (batch_size cfg) (selected_device cfg).

(** The batches a run iterates over. *)
Definition batches_of (cfg : Config) : list batch :=
  data_loader (input_length cfg + 1) (batch_size cfg) 0.

(** What [train] emits between [print_config] and the end of the call
    of [DataLoader]. *)
Definition loader_log (cfg : Config) (cls : model_class) : list event :=
  [ Construct cls (model_args cfg);
    Dataset (input_length cfg + 1);
    Loader (batch_size cfg) 0 ].

(** What [train] emits between [print_config] and the loop. *)
Definition setup_log (cfg : Config) (cls : model_class) : list event :=
  [ Construct cls (model_args cfg);
    Dataset (input_length cfg + 1);
    Loader (batch_size cfg) 0;
    Criterion;
    Optimizer (learning_rate cfg) ].

(** The loop variables on entry. *)
Definition initial_vars (cfg : Config) (cls : model_class) : loop_vars :=
  let m := construct cls (model_args cfg) in
  mkVars m (rmsprop m (learning_rate cfg)) (zeros (Z.to_nat (train_steps cfg + 1))).

(** The loop of [train] as it is entered: on the configuration with its
    model type lower-cased, over the batches of the loader, from the
    initial loop variables. *)
Definition training_loop (cfg : Config) (cls : model_class) :
    outcome loop_vars * Config * list event :=
  for_enumerate (train_step (lowered cfg)) 0 (batches_of cfg)
                (initial_vars (lowered cfg) cls) (lowered cfg).

(** The end of [train], once the loop has left the accuracy array
    [train_acc], the shared config [c2] and the log [l]. *)
Definition finish (cfg : Config) (train_acc : list Q) (c2 : Config) (l : list event) :
    outcome (option dict) * Config * list event :=
  if experiment_flag cfg then
    match last train_acc with
    | Some x => (Return (Some (stats_of train_acc x)), c2, l ++ finish_log cfg train_acc)
    | None => (Raise IndexError, c2, l ++ finish_log cfg train_acc)
    end
  else (Return None, c2, l ++ finish_log cfg train_acc).

(** The loop variables after the batch [b] is processed at [step]. *)
Definition after_step (cfg : Config) (step : nat) (b : batch) (v : loop_vars) :
    loop_vars :=
  let y_pred := forward (the_model v) b.1 in
  let m := clip_grad_norm_ (max_norm cfg)
             (backward (criterion y_pred b.2)
                       (zero_grad (the_optimizer v) (the_model v))) in
  let om := optimizer_step (the_optimizer v) m in
  mkVars om.2 om.1 (<[step := accuracy y_pred b.2 cfg]> (the_train_acc v)).

(** The condition of the [break]. *)
Definition stops (cfg : Config) (train_acc : list Q) (step : nat) : bool :=
  (Z.of_nat step =? train_steps cfg) || Qeq_bool (moving_average train_acc step) 1.


End Vocabulary.

(* ================================================================== *)
(** * Vocabulary of the further statements *)

(** The file names passed to [torch.save] and [numpy.save], in the order
    of the calls ([numpy.save] adds the extension '.npy' to the name it is
    given). *)
Definition saved_files (log : list event) : list string :=
  omap (fun e => match e with
                 | Torch_save f => Some f
                 | Np_save _ f _ => Some f
                 | _ => None
                 end) log.

(** The three file names one pass of the sweep saves to, for a lower-case
    model type and a sequence length. *)
Definition pass_files (mt : string) (sl : Z) : list string :=
  [ (mt ++ "_model.pt")%string;
    ("train_acc_" ++ mt ++ Py.str_of_int sl)%string;
    ("experiment_stats_500" ++ mt ++ "500")%string ].
(* ================================================================== *)
(** * The monad and the loops *)

Section Loops.

Context {A V : Type}.

Lemma for_enumerate_cons (body : nat -> A -> V -> Run (control V)) step x rest v c :
  for_enumerate body step (x :: rest) v c =
    match body step x v c with
    | (Return (Break v'), c1, l1) => (Return v', c1, l1)
    | (Return (Continue v'), c1, l1) =>
        let r := for_enumerate body (S step) rest v' c1 in
        (outcome_of r, config_of r, l1 ++ log_of r)
    | (Raise e, c1, l1) => (Raise e, c1, l1)
    end.
Proof.
  cbn [for_enumerate]. unfold bind.
  destruct (body step x v c) as [[[[v'|v']|e] c1] l1]; [| |reflexivity].
  - destruct (for_enumerate body (S step) rest v' c1) as [[r c2] l2]. reflexivity.
  - unfold ret. rewrite app_nil_r. reflexivity.
Qed.

Lemma for_each_cons (body : A -> V -> Run V) x rest v c :
  for_each body (x :: rest) v c =
    match body x v c with
    | (Return v', c1, l1) =>
        let r := for_each body rest v' c1 in
        (outcome_of r, config_of r, l1 ++ log_of r)
    | (Raise e, c1, l1) => (Raise e, c1, l1)
    end.
Proof.
  cbn [for_each]. unfold bind.
  destruct (body x v c) as [[[v'|e] c1] l1]; [|reflexivity].
  destruct (for_each body rest v' c1) as [[r c2] l2]. reflexivity.
Qed.

End Loops.

(* ================================================================== *)
(** * The loop body *)

Section Body.

Context `{Torch}.

(** One pass through the loop body, case by case. *)
Lemma train_step_eq cfg step b v c :
  train_step cfg step b v c =
    let y_pred := forward (the_model v) b.1 in
    if (step <? length (the_train_acc v))%nat then
      if print_every cfg =? 0
      then (Raise ZeroDivisionError, c, batch_ops cfg step b y_pred)
      else
        let v' := after_step cfg step b v in
        (Return (if stops cfg (the_train_acc v') step then Break v' else Continue v'),
         c,
         batch_ops cfg step b y_pred ++ report_lines cfg step (accuracy y_pred b.2 cfg))
    else (Raise IndexError, c, removelast (batch_ops cfg step b y_pred)).
Proof.
  destruct b as [x y].
  unfold train_step, after_step, setitem, divides, report_lines, stops.
  destruct (optimizer_step _ _) as [o m] eqn:Eo.
  unfold bind, emit, ret, raise, batch_ops. cbn [fst snd app removelast].
  destruct (step <? length (the_train_acc v))%nat eqn:Hlt; [|reflexivity].
  destruct (print_every cfg =? 0) eqn:Hpe; [reflexivity|].
  assert (Hn : nth step (<[step:=accuracy (forward (the_model v) x) y cfg]> (the_train_acc v)) 0%Q
               = accuracy (forward (the_model v) x) y cfg).
  { apply Nat.ltb_lt in Hlt. apply nth_lookup_Some with (d := 0%Q).
    apply list_lookup_insert_eq. exact Hlt. }
  rewrite Hn.
  destruct (Z.of_nat step mod print_every cfg =? 0); cbn [app the_train_acc];
    destruct (_ || _); reflexivity.
Qed.

Lemma batch_ops_loop_events cfg step b y :
  Forall (fun e => is_loop_event e = true) (batch_ops cfg step b y).
Proof. unfold batch_ops. repeat constructor. Qed.

Lemma report_lines_loop_events cfg step a :
  Forall (fun e => is_loop_event e = true) (report_lines cfg step a).
Proof.
  unfold report_lines.
  destruct (print_every cfg =? 0); [constructor|].
  destruct (_ =? 0); repeat constructor.
Qed.

Lemma report_lines_prints cfg step a :
  List.filter is_batch_event (report_lines cfg step a) = [].
Proof.
  unfold report_lines.
  destruct (print_every cfg =? 0); [reflexivity|].
  destruct (_ =? 0); reflexivity.
Qed.


Lemma report_lines_no_data cfg step a :
  List.filter is_data_event (report_lines cfg step a) = [].
Proof.
  unfold report_lines.
  destruct (print_every cfg =? 0); [reflexivity|].
  destruct (_ =? 0); reflexivity.
Qed.

(** A pass leaves the shared config alone, emits loop events only, and
    draws exactly its batch. *)
Lemma train_step_any cfg step b v c :
  config_of (train_step cfg step b v c) = c /\
  Forall (fun e => is_loop_event e = true) (log_of (train_step cfg step b v c)) /\
  List.filter is_data_event (log_of (train_step cfg step b v c)) = [Draw step b].
Proof.
  rewrite train_step_eq. cbv zeta.
  destruct (step <? length (the_train_acc v))%nat;
    [destruct (print_every cfg =? 0)|]; cbn [config_of log_of fst snd].
  - split; [reflexivity|]. split; [apply batch_ops_loop_events|reflexivity].
  - split; [reflexivity|]. split.
    + apply Forall_app. split;
        [apply batch_ops_loop_events|apply report_lines_loop_events].
    + rewrite List.filter_app, report_lines_no_data. reflexivity.
  - split; [reflexivity|]. split; [|reflexivity].
    cbn. repeat constructor.
Qed.

End Body.

(* ================================================================== *)
(** * The loop over the data loader *)

Section Loop.

Context `{Torch}.

(** Whatever the configuration, the loop leaves the shared config alone,
    emits loop events only, and draws a prefix of the batches, in
    order. *)
Lemma loop_any cfg batches : forall step v c,
  let r := for_enumerate (train_step cfg) step batches v c in
  config_of r = c /\
  Forall (fun e => is_loop_event e = true) (log_of r) /\
  exists k, List.filter is_data_event (log_of r) = draw_events step (take k batches).
Proof.
  induction batches as [|b rest IH]; intros step v c r; subst r.
  - cbn. split; [reflexivity|]. split; [constructor|]. exists 0%nat. reflexivity.
  - rewrite for_enumerate_cons.
    destruct (train_step_any cfg step b v c) as (Hc & Hl & Hd).
    destruct (train_step cfg step b v c) as [[[[v'|v']|e] c1] l1];
      cbn [config_of log_of fst snd] in *; subst c1.
    + destruct (IH (S step) v' c) as (Hc' & Hl' & k & Hd').
      split; [exact Hc'|]. split; [apply Forall_app; split; assumption|].
      exists (S k). rewrite List.filter_app, Hd, Hd'. reflexivity.
    + split; [reflexivity|]. split; [assumption|]. exists 1%nat.
      rewrite Hd. cbn. rewrite take_0. reflexivity.
    + split; [reflexivity|]. split; [assumption|]. exists 1%nat.
      rewrite Hd. cbn. rewrite take_0. reflexivity.
Qed.


Lemma insert_recorded (recorded : list Q) n a :
  (length recorded < n)%nat ->
  <[length recorded := a]> (recorded ++ zeros (n - length recorded))
  = (recorded ++ [a]) ++ zeros (n - S (length recorded)).
Proof.
  intros Hlt. rewrite insert_app_r_alt by lia. rewrite Nat.sub_diag.
  replace (n - length recorded)%nat with (S (n - S (length recorded))) by lia.
  unfold zeros. cbn. rewrite <- app_assoc. reflexivity.
Qed.

Lemma array_at_recorded n (accs more : list Q) i :
  length accs = S i ->
  array_at n (accs ++ more) i = accs ++ zeros (n - S i).
Proof.
  intros Hlen. unfold array_at. rewrite take_app_length' by (symmetry; exact Hlen). reflexivity.
Qed.

(** The loop when every write is in bounds: entered at step
    [length recorded] with the accuracies [recorded] in the array, it
    processes a prefix [done] of the batches, leaves their accuracies
    behind the recorded ones, goes on while the break condition is
    false and, unless the batches run out, ends on a step where it is
    true.  With [print_every = 0] the first pass raises after its
    write. *)
Lemma loop_run cfg n batches : forall recorded m o c,
  n = Z.to_nat (train_steps cfg + 1) ->
  Z.of_nat (length recorded) <= train_steps cfg ->
  let step := length recorded in
  let r := for_enumerate (train_step cfg) step batches
             (mkVars m o (recorded ++ zeros (n - step))) c in
  exists (done : list (batch * tensor2)) m' o',
    let accs := recorded ++ accuracies cfg done in
    let k := length done in
    done.*1 = take k batches /\
    (step + k <= n)%nat /\
    log_of r = loop_log cfg step done /\
    config_of r = c /\
    outcome_of r =
      (if (print_every cfg =? 0) && (0 <? k)%nat then Raise ZeroDivisionError
       else Return (mkVars m' o' (accs ++ zeros (n - (step + k))))) /\
    (forall i, (step <= i)%nat -> (S i < step + k)%nat ->
               stops cfg (array_at n accs i) i = false) /\
    ((k < length batches)%nat ->
     (0 < k)%nat /\
     (print_every cfg <> 0 ->
      stops cfg (array_at n accs (step + k - 1)) (step + k - 1) = true)).
Proof.
  induction batches as [|b rest IH]; intros recorded m o c Hn Hstep; cbv zeta.
  - exists [], m, o. cbn.
    rewrite andb_false_r, app_nil_r, Nat.add_0_r.
    repeat split; try reflexivity; try lia.
  - rewrite for_enumerate_cons, train_step_eq. cbv zeta.
    cbn [the_train_acc the_model the_optimizer].
    set (step := length recorded) in *.
    assert (Hlt : (step < n)%nat) by lia.
    assert (Hin : (step <? length (recorded ++ zeros (n - step)))%nat = true).
    { apply Nat.ltb_lt. unfold zeros. rewrite length_app, length_replicate. lia. }
    rewrite Hin. set (y := forward m b.1). set (a := accuracy y b.2 cfg).
    destruct (print_every cfg =? 0) eqn:Hpe.
    + (* the divisibility test raises *)
      exists [(b, y)], m, o. cbn [length fmap list_fmap fst snd accuracies map].
      cbn [outcome_of config_of log_of fst snd loop_log Nat.ltb Nat.leb andb].
      unfold report_lines. rewrite Hpe. rewrite !app_nil_r.
      repeat split; try reflexivity; try lia.
    + unfold after_step. cbn [the_train_acc the_model the_optimizer].
      fold y. fold a.
      assert (Hins : <[step := a]> (recorded ++ zeros (n - step))
                     = (recorded ++ [a]) ++ zeros (n - S step))
        by (apply insert_recorded; exact Hlt).
      rewrite Hins.
      assert (Hlen : length (recorded ++ [a]) = S step).
      { rewrite length_app. cbn. lia. }
      destruct (stops cfg ((recorded ++ [a]) ++ zeros (n - S step)) step) eqn:Hstop.
      * (* break *)
        eexists [(b, y)], _, _.
        cbn [length fmap list_fmap fst snd accuracies map].
        cbn [outcome_of config_of log_of fst snd loop_log Nat.ltb Nat.leb andb].
        rewrite ?app_nil_r.
        replace (step + 1)%nat with (S step) by lia.
        split; [reflexivity|]. split; [lia|]. split; [reflexivity|].
        split; [reflexivity|]. split; [reflexivity|]. split; [intros; lia|].
        intros _. split; [lia|]. intros _.
        replace (S step - 1)%nat with step by lia.
        fold a. rewrite <- (app_nil_r (recorded ++ [a])).
        rewrite array_at_recorded by exact Hlen.
        exact Hstop.
      * (* next batch *)
        assert (Hne : Z.of_nat step <> train_steps cfg).
        { unfold stops in Hstop. apply orb_false_elim in Hstop.
          destruct Hstop as [Hs _]. apply Z.eqb_neq in Hs. exact Hs. }
        set (v' := optimizer_step o _).
        destruct (IH (recorded ++ [a]) v'.2 v'.1 c Hn) as
          (done & m' & o' & Hpre & Hk & Hlog & Hc & Hout & Hgo & Hend).
        { rewrite Hlen. lia. }
        rewrite Hlen in *.
        exists ((b, y) :: done), m', o'.
        change (accuracies cfg ((b, y) :: done)) with (a :: accuracies cfg done).
        cbn [length fmap list_fmap fst snd loop_log].
        cbn [outcome_of config_of log_of fst snd].
        fold a.
        assert (Heq : recorded ++ a :: accuracies cfg done
                      = (recorded ++ [a]) ++ accuracies cfg done)
          by (rewrite <- app_assoc; reflexivity).
        rewrite Heq.
        split; [cbn; f_equal; exact Hpre|].
        split; [lia|].
        split; [rewrite Hlog, <- app_assoc; reflexivity|].
        split; [exact Hc|].
        split.
        { rewrite Hout. cbn [andb].
          replace (S step + length done)%nat with (step + S (length done))%nat by lia.
          reflexivity. }
        split.
        { intros i Hi1 Hi2. destruct (decide (i = step)) as [->|Hi].
          - rewrite array_at_recorded by exact Hlen. exact Hstop.
          - apply Hgo; lia. }
        intros Hk'. cbn [length] in Hk'.
        destruct Hend as [Hpos Hlast]; [lia|].
        split; [lia|]. intros Hpe'. specialize (Hlast Hpe').
        replace (step + S (length done) - 1)%nat with (S step + length done - 1)%nat by lia.
        exact Hlast.
Qed.

End Loop.

(* ================================================================== *)
(** * The shape of a training run *)

Section TrainShape.

Context `{Torch}.

Lemma print_config_eq c : print_config c = (Return tt, c, config_lines c).
Proof. reflexivity. Qed.

(** [train], case by case: the assertion, the loader, the optimizer,
    [np.zeros], the loop, the end. *)
Lemma train_eq (cfg : Config) :
  let c := lowered cfg in
  train cfg =
    match class_of (model_type c) with
    | None => (Raise AssertionError, c, config_lines cfg)
    | Some cls =>
        if batch_size c <=? 0
        then (Raise ValueError, c, config_lines cfg ++ loader_log c cls)
        else if negb (Qle_bool 0 (learning_rate c))
        then (Raise ValueError, c, config_lines cfg ++ setup_log c cls)
        else if train_steps c + 1 <? 0
        then (Raise ValueError, c, config_lines cfg ++ setup_log c cls)
        else
          match for_enumerate (train_step c) 0 (batches_of c) (initial_vars c cls) c with
          | (Raise e, c2, l) => (Raise e, c2, config_lines cfg ++ setup_log c cls ++ l)
          | (Return v, c2, l) =>
              finish c (the_train_acc v) c2 (config_lines cfg ++ setup_log c cls ++ l)
          end
    end.
Proof.
  intros c. unfold train. unfold bind at 1. rewrite print_config_eq.
  unfold bind at 1. unfold get_config at 1.
  unfold bind at 1. unfold put_config at 1.
  unfold bind at 1. unfold get_config at 1.
  fold (lowered cfg). fold c.
  unfold class_of, assert, finish, initial_vars, setup_log, loader_log, batches_of,
    model_args, selected_device, DataLoader, RMSprop.
  destruct (model_type c =? "rnn")%string eqn:E1;
    [|destruct (model_type c =? "lstm")%string eqn:E2;
      [|destruct (model_type c =? "rrn")%string eqn:E3]];
    cbn [existsb orb]; rewrite ?E1, ?E2, ?E3; cbn [orb];
    unfold bind, emit, ret, raise, np_zeros, make_stats, getitem_last, stats_of,
      finish_log, zeros;
    try reflexivity.
  all: destruct (batch_size c <=? 0) eqn:Eb; [reflexivity|].
  all: destruct (Qle_bool 0 (learning_rate c)) eqn:El; [|reflexivity].
  all: cbn [negb].
  all: destruct (train_steps c + 1 <? 0) eqn:En; [reflexivity|].
  all: unfold ret; cbv beta iota.
  all: destruct (for_enumerate _ _ _ _ _) as [[[v|e] c2] l]; [|reflexivity].
  all: destruct (experiment_flag c); [destruct (last (the_train_acc v))|];
    cbv beta iota; cbn [app dict_set String.eqb Ascii.eqb Bool.eqb];
    rewrite <- ?app_assoc; reflexivity.
Qed.

(** Lower-casing the model type changes nothing the loop depends on. *)
Lemma batch_ops_lowered cfg step b y :
  batch_ops (lowered cfg) step b y = batch_ops cfg step b y.
Proof. reflexivity. Qed.

Lemma loop_log_lowered cfg done : forall step,
  loop_log (lowered cfg) step done = loop_log cfg step done.
Proof.
  induction done as [|[b y] rest IH]; intros step; [reflexivity|].
  cbn [loop_log]. rewrite IH. reflexivity.
Qed.

Lemma accuracies_lowered cfg done :
  accuracies (lowered cfg) done = accuracies cfg done.
Proof. reflexivity. Qed.

(** The events of the processed batches inside the loop's log. *)
Lemma loop_log_batch_events cfg done : forall step,
  List.filter is_batch_event (loop_log cfg step done) = batch_blocks cfg step done.
Proof.
  induction done as [|[b y] rest IH]; intros step; [reflexivity|].
  cbn [loop_log batch_blocks].
  rewrite !List.filter_app, report_lines_prints, IH. reflexivity.
Qed.

Lemma loop_log_data_events cfg done : forall step,
  List.filter is_data_event (loop_log cfg step done) = draw_events step done.*1.
Proof.
  induction done as [|[b y] rest IH]; intros step; [reflexivity|].
  cbn [loop_log]. rewrite !List.filter_app, report_lines_no_data, IH. reflexivity.
Qed.

Lemma report_lines_no_acc cfg step a : recorded_accs (report_lines cfg step a) = [].
Proof.
  unfold report_lines.
  destruct (print_every cfg =? 0); [reflexivity|].
  destruct (_ =? 0); reflexivity.
Qed.

Lemma recorded_accs_app l1 l2 :
  recorded_accs (l1 ++ l2) = recorded_accs l1 ++ recorded_accs l2.
Proof. apply omap_app. Qed.

Lemma loop_log_recorded cfg done : forall step,
  recorded_accs (loop_log cfg step done) = accuracies cfg done.
Proof.
  induction done as [|[b y] rest IH]; intros step; [reflexivity|].
  cbn [loop_log]. rewrite !recorded_accs_app, report_lines_no_acc, IH. reflexivity.
Qed.

(** Where the array is written, and with what. *)
Lemma loop_log_writes cfg done : forall step i a,
  In (Set_acc i a) (loop_log cfg step done) <->
  (step <= i)%nat /\ accuracies cfg done !! (i - step)%nat = Some a.
Proof.
  induction done as [|[b y] rest IH]; intros step i a.
  - cbn. split; [tauto|]. intros [_ Hx]. discriminate.
  - cbn [loop_log]. rewrite !in_app_iff, IH.
    assert (Hr : ~ In (Set_acc i a) (report_lines cfg step (accuracy y (b, y).1.2 cfg))).
    { unfold report_lines. destruct (print_every cfg =? 0); [tauto|].
      destruct (_ =? 0); cbn; intuition discriminate. }
    split.
    + intros [Hin|[Hin|[Hle Hlk]]]; [|tauto|].
      * cbn in Hin. repeat (destruct Hin as [Hin|Hin]; try discriminate); [|tauto].
        inversion Hin; subst. split; [lia|]. rewrite Nat.sub_diag. reflexivity.
      * split; [lia|]. replace (i - step)%nat with (S (i - S step)) by lia. exact Hlk.
    + intros [Hle Hlk]. destruct (decide (i = step)) as [->|Hne].
      * left. rewrite Nat.sub_diag in Hlk. cbn in Hlk. inversion Hlk; subst.
        cbn. tauto.
      * right. right. split; [lia|].
        replace (i - step)%nat with (S (i - S step)) in Hlk by lia. exact Hlk.
Qed.

End TrainShape.

(* ================================================================== *)
(** * A run whose writes are in bounds *)

Section TrainRun.

Context `{Torch}.

(** With a batch size that is not positive, a run that passes the
    assertion ends at the call of [DataLoader]. *)
Lemma train_bad_batch_size cfg cls :
  class_of (Py.lower (model_type cfg)) = Some cls ->
  batch_size cfg <= 0 ->
  train cfg = (Raise ValueError, lowered cfg, config_lines cfg ++ loader_log cfg cls).
Proof.
  intros Hcls Hbs. rewrite train_eq. cbv zeta.
  change (model_type (lowered cfg)) with (Py.lower (model_type cfg)). rewrite Hcls.
  change (batch_size (lowered cfg)) with (batch_size cfg).
  destruct (Z.leb_spec (batch_size cfg) 0) as [_|Hc]; [reflexivity|lia].
Qed.

(** With a positive batch size and a negative learning rate, a run that
    passes the assertion ends at the call of [RMSprop]. *)
Lemma train_bad_learning_rate cfg cls :
  class_of (Py.lower (model_type cfg)) = Some cls ->
  0 < batch_size cfg ->
  (learning_rate cfg < 0)%Q ->
  train cfg = (Raise ValueError, lowered cfg, config_lines cfg ++ setup_log cfg cls).
Proof.
  intros Hcls Hbs Hlr. rewrite train_eq. cbv zeta.
  change (model_type (lowered cfg)) with (Py.lower (model_type cfg)). rewrite Hcls.
  change (batch_size (lowered cfg)) with (batch_size cfg).
  destruct (Z.leb_spec (batch_size cfg) 0) as [Hc|_]; [lia|].
  change (learning_rate (lowered cfg)) with (learning_rate cfg).
  destruct (Qle_bool 0 (learning_rate cfg)) eqn:El; [|reflexivity].
  apply Qle_bool_iff in El. exfalso. apply (Qlt_not_le _ _ Hlr El).
Qed.

(** With a model type that passes the assertion, a positive batch size,
    a learning rate that is not negative and [train_steps >= 0], a run
    is its setup, the events of the batches [done] it processed, and,
    unless the divisibility test raised, the end of [train] on the
    array that holds their accuracies. *)
Lemma train_run cfg cls :
  class_of (Py.lower (model_type cfg)) = Some cls ->
  0 < batch_size cfg ->
  (0 <= learning_rate cfg)%Q ->
  0 <= train_steps cfg ->
  exists (done : list (batch * tensor2)),
    let n := Z.to_nat (train_steps cfg + 1) in
    let k := length done in
    let accs := accuracies cfg done in
    let log := config_lines cfg ++ setup_log cfg cls ++ loop_log cfg 0 done in
    done.*1 = take k (batches_of cfg) /\
    (k <= n)%nat /\
    (forall i, (S i < k)%nat -> stops cfg (array_at n accs i) i = false) /\
    ((k < length (batches_of cfg))%nat ->
     (0 < k)%nat /\
     (print_every cfg <> 0 -> stops cfg (array_at n accs (k - 1)) (k - 1) = true)) /\
    train cfg =
      (if (print_every cfg =? 0) && (0 <? k)%nat
       then (Raise ZeroDivisionError, lowered cfg, log)
       else finish (lowered cfg) (accs ++ zeros (n - k)) (lowered cfg) log).
Proof.
  intros Hcls Hbs Hlr Hts. rewrite train_eq. cbv zeta.
  change (model_type (lowered cfg)) with (Py.lower (model_type cfg)). rewrite Hcls.
  change (batch_size (lowered cfg)) with (batch_size cfg).
  destruct (Z.leb_spec (batch_size cfg) 0) as [Hc|_]; [lia|].
  change (learning_rate (lowered cfg)) with (learning_rate cfg).
  rewrite (proj2 (Qle_bool_iff 0 (learning_rate cfg)) Hlr). cbn [negb].
  change (train_steps (lowered cfg)) with (train_steps cfg).
  destruct (train_steps cfg + 1 <? 0) eqn:En; [apply Z.ltb_lt in En; lia|].
  set (c := lowered cfg).
  pose proof (loop_run c (Z.to_nat (train_steps cfg + 1)) (batches_of c) []
                (construct cls (model_args c))
                (rmsprop (construct cls (model_args c)) (learning_rate c)) c
                eq_refl Hts) as Hrun.
  cbv zeta in Hrun. cbn [length app Nat.add] in Hrun. rewrite Nat.sub_0_r in Hrun.
  destruct Hrun as (done & m' & o' & Hpre & Hk & Hlog & Hc & Hout & Hgo & Hend).
  exists done. cbv zeta.
  split; [exact Hpre|]. split; [exact Hk|].
  split; [intros i Hi; apply (Hgo i); lia|].
  split.
  { intros Hlt. destruct (Hend Hlt) as [Hpos Hlast]. split; [exact Hpos|].
    exact Hlast. }
  unfold initial_vars. fold c.
  destruct (for_enumerate _ _ _ _ _) as [[r c2] l].
  cbn [outcome_of config_of log_of fst snd] in Hlog, Hc, Hout. subst c2 l.
  unfold c at 1 in Hout. change (print_every (lowered cfg)) with (print_every cfg) in Hout.
  rewrite Hout.
  subst c. rewrite loop_log_lowered.
  destruct ((print_every cfg =? 0) && (0 <? length done)%nat); reflexivity.
Qed.

End TrainRun.

(* ================================================================== *)
(** * Parts of a log *)

Section LogParts.

Context `{Torch}.

Lemma filter_none (f : event -> bool) (P : event -> Prop) l :
  Forall P l -> (forall e, P e -> f e = false) -> List.filter f l = [].
Proof.
  intros Hall Hf. induction Hall as [|e l He _ IH]; [reflexivity|].
  cbn. rewrite (Hf e He). exact IH.
Qed.

Lemma loop_event_not_construct e : is_loop_event e = true -> is_construct e = false.
Proof. destruct e; try reflexivity; discriminate. Qed.

Lemma loop_event_not_save e : is_loop_event e = true -> is_save e = false.
Proof. destruct e; try reflexivity; discriminate. Qed.

Lemma log_of_finish cfg train_acc c2 l :
  log_of (finish cfg train_acc c2 l) = l ++ finish_log cfg train_acc.
Proof.
  unfold finish. destruct (experiment_flag cfg); [destruct (last train_acc)|];
    reflexivity.
Qed.

Lemma config_of_finish cfg train_acc c2 l :
  config_of (finish cfg train_acc c2 l) = c2.
Proof.
  unfold finish. destruct (experiment_flag cfg); [destruct (last train_acc)|];
    reflexivity.
Qed.

(** The loop raises nothing but the two errors of its body. *)
Lemma loop_raises cfg batches : forall step v c e,
  outcome_of (for_enumerate (train_step cfg) step batches v c) = Raise e ->
  e = IndexError \/ e = ZeroDivisionError.
Proof.
  induction batches as [|b rest IH]; intros step v c e; [discriminate|].
  rewrite for_enumerate_cons, train_step_eq. cbv zeta.
  destruct (step <? length (the_train_acc v))%nat;
    [destruct (print_every cfg =? 0)|]; cbn [outcome_of fst].
  - intros [= <-]. tauto.
  - destruct (stops cfg _ step); cbn [outcome_of fst]; [discriminate|apply IH].
  - intros [= <-]. tauto.
Qed.

(** Every log of [train] starts with the lines of [print_config]; what
    follows depends on the assertion. *)
Lemma train_log cfg :
  exists rest, log_of (train cfg) = config_lines cfg ++ rest /\
    match class_of (Py.lower (model_type cfg)) with
    | None => rest = [] /\ outcome_of (train cfg) = Raise AssertionError
    | Some cls =>
        exists pre l post k,
          rest = pre ++ l ++ post /\
          (pre = loader_log cfg cls \/ pre = setup_log cfg cls) /\
          Forall (fun e => is_loop_event e = true) l /\
          List.filter is_data_event l = draw_events 0 (take k (batches_of cfg)) /\
          (post = [] \/ exists train_acc, post = finish_log (lowered cfg) train_acc) /\
          outcome_of (train cfg) <> Raise AssertionError
    end.
Proof.
  rewrite train_eq. cbv zeta.
  change (model_type (lowered cfg)) with (Py.lower (model_type cfg)).
  destruct (class_of (Py.lower (model_type cfg))) as [cls|].
  2:{ exists []. rewrite app_nil_r. cbn. tauto. }
  destruct (batch_size (lowered cfg) <=? 0).
  { eexists. split; [reflexivity|]. exists (loader_log cfg cls), [], [], 0%nat.
    rewrite !app_nil_r. repeat split; try constructor; try discriminate; tauto. }
  destruct (Qle_bool 0 (learning_rate (lowered cfg))); cbn [negb].
  2:{ eexists. split; [reflexivity|]. exists (setup_log cfg cls), [], [], 0%nat.
      rewrite !app_nil_r. repeat split; try constructor; try discriminate; tauto. }
  destruct (train_steps (lowered cfg) + 1 <? 0).
  { eexists. split; [reflexivity|]. exists (setup_log cfg cls), [], [], 0%nat.
    rewrite !app_nil_r. repeat split; try constructor; try discriminate; tauto. }
  destruct (loop_any (lowered cfg) (batches_of (lowered cfg)) 0
              (initial_vars (lowered cfg) cls) (lowered cfg)) as (Hc & Hl & k & Hd).
  pose proof (loop_raises (lowered cfg) (batches_of (lowered cfg)) 0
                (initial_vars (lowered cfg) cls) (lowered cfg)) as Hr.
  destruct (for_enumerate _ _ _ _ _) as [[[v|e] c2] l];
    cbn [config_of log_of outcome_of fst snd] in *.
  - rewrite log_of_finish. eexists. split; [rewrite <- !app_assoc; reflexivity|].
    exists (setup_log cfg cls), l, (finish_log (lowered cfg) (the_train_acc v)), k.
    repeat split; try assumption.
    + tauto.
    + right. eexists. reflexivity.
    + unfold finish.
      destruct (experiment_flag _); [destruct (last _)|]; discriminate.
  - eexists. split; [reflexivity|]. exists (setup_log cfg cls), l, [], k.
    rewrite app_nil_r.
    repeat split; try assumption; [tauto|tauto|].
    intros [= ->]. destruct (Hr _ eq_refl); discriminate.
Qed.

End LogParts.

(* ================================================================== *)
(** * Model construction, dataset, assertion *)

Section Construction.

Context `{Torch}.

Lemma class_of_none mt :
  class_of mt = None <-> mt <> "rnn" /\ mt <> "lstm" /\ mt <> "rrn".
Proof.
  unfold class_of.
  destruct (String.eqb_spec mt "rnn"); [split; [discriminate|tauto]|].
  destruct (String.eqb_spec mt "lstm"); [split; [discriminate|tauto]|].
  destruct (String.eqb_spec mt "rrn"); [split; [discriminate|tauto]|].
  tauto.
Qed.

Lemma class_of_some mt :
  mt = "rnn" \/ mt = "lstm" \/ mt = "rrn" ->
  class_of mt =
    Some (if String.eqb mt "rnn" then VanillaRNN
          else if String.eqb mt "lstm" then LSTM else RRN).
Proof. intros [->|[->| ->]]; reflexivity. Qed.

Lemma config_lines_prints cfg : Forall (fun e => is_print e = true) (config_lines cfg).
Proof. unfold config_lines, vars. cbn. repeat constructor. Qed.

(** C2. For every configuration whose lower-cased model type is 'rnn',
    'lstm' or 'rrn', [train] constructs exactly one model: a VanillaRNN,
    an LSTM or an RRN respectively, and in all three cases with
    seq_length = config.input_length, input_dim, num_hidden,
    num_classes, batch_size and the selected device. *)
Theorem C2_one_model_constructed (cfg : Config) :
  let mt := Py.lower (model_type cfg) in
  mt = "rnn" \/ mt = "lstm" \/ mt = "rrn" ->
  List.filter is_construct (log_of (train cfg)) =
    [ Construct
        (if String.eqb mt "rnn" then VanillaRNN
         else if String.eqb mt "lstm" then LSTM else RRN)
        (mkArgs (input_length cfg) (input_dim cfg) (num_hidden cfg)
                (num_classes cfg) (batch_size cfg) (selected_device cfg)) ].
Proof.
  intros mt Hmt. destruct (train_log cfg) as (rest & Hlog & Hrest).
  fold mt in Hrest. rewrite (class_of_some mt Hmt) in Hrest.
  destruct Hrest as (pre & l & post & k & -> & Hpre & Hl & _ & Hpost & _).
  rewrite Hlog, !List.filter_app.
  rewrite (filter_none is_construct _ _ (config_lines_prints cfg))
    by (intros [] ?; try reflexivity; discriminate).
  rewrite (filter_none is_construct _ _ Hl) by apply loop_event_not_construct.
  destruct Hpre as [->| ->]; destruct Hpost as [->|[ta ->]]; reflexivity.
Qed.


(** C8. When the lower-cased model type is none of 'rnn', 'lstm', 'rrn',
    [train] fails at the assertion having only printed the
    configuration: no model, dataset, loader or optimizer is built and
    no step runs.  When it is one of the three, [train] does not fail
    with an assertion error. *)
Theorem C8_assertion_guards_train (cfg : Config) :
  let mt := Py.lower (model_type cfg) in
  (mt <> "rnn" -> mt <> "lstm" -> mt <> "rrn" ->
   train cfg = (Raise AssertionError, lowered cfg, config_lines cfg) /\
   Forall (fun e => is_print e = true) (log_of (train cfg))) /\
  (mt = "rnn" \/ mt = "lstm" \/ mt = "rrn" ->
   outcome_of (train cfg) <> Raise AssertionError).
Proof.
  intros mt. split.
  - intros H1 H2 H3.
    assert (Hnone : class_of mt = None) by (apply class_of_none; tauto).
    assert (Heq : train cfg = (Raise AssertionError, lowered cfg, config_lines cfg)).
    { rewrite train_eq. cbv zeta.
      change (model_type (lowered cfg)) with mt. rewrite Hnone. reflexivity. }
    split; [exact Heq|]. rewrite Heq. apply config_lines_prints.
  - intros Hmt. destruct (train_log cfg) as (rest & _ & Hrest).
    fold mt in Hrest. rewrite (class_of_some mt Hmt) in Hrest.
    destruct Hrest as (pre & l & post & k & _ & _ & _ & _ & _ & Hne). exact Hne.
Qed.

End Construction.

(* ================================================================== *)
(** * The operations on a batch *)

Section BatchOperations.

Context `{Torch}.

Lemma config_lines_no_batch_event cfg :
  List.filter is_batch_event (config_lines cfg) = [].
Proof.
  apply (filter_none _ _ _ (config_lines_prints cfg)).
  intros [] ?; try reflexivity; discriminate.
Qed.

(** C1, as amended.  For every training run with train_steps >= 0, the
    batches drawn from the loader are processed one after the other, and
    each of them by exactly these operations, in this order: forward
    pass, cross-entropy loss, zeroing of the gradients, backward pass,
    clipping of the gradient norm to config.max_norm, one optimizer
    step, and the recording of the batch accuracy at the current step
    index. *)
Theorem C1_batch_operations_in_order (cfg : Config) :
  0 <= train_steps cfg ->
  exists done : list (batch * tensor2),
    done.*1 `prefix_of` batches_of cfg /\
    List.filter is_batch_event (log_of (train cfg)) = batch_blocks cfg 0 done.
Proof.
  intros Hts. destruct (class_of (Py.lower (model_type cfg))) as [cls|] eqn:Hcls.
  - destruct (Z_le_gt_dec (batch_size cfg) 0) as [Hbad|Hbs].
    { (* the loader is refused: no batch is drawn *)
      exists []. split; [apply prefix_nil|].
      rewrite (train_bad_batch_size cfg cls Hcls Hbad). cbn [log_of snd].
      rewrite List.filter_app, config_lines_no_batch_event. reflexivity. }
    destruct (Qlt_le_dec (learning_rate cfg) 0) as [Hneg|Hlr].
    { (* the optimizer is refused: no batch is drawn *)
      exists []. split; [apply prefix_nil|].
      rewrite (train_bad_learning_rate cfg cls Hcls ltac:(lia) Hneg). cbn [log_of snd].
      rewrite List.filter_app, config_lines_no_batch_event. reflexivity. }
    destruct (train_run cfg cls Hcls ltac:(lia) Hlr Hts)
      as (done & Hpre & _ & _ & _ & Heq).
    cbv zeta in Heq. exists done. split; [rewrite Hpre; apply prefix_take|].
    assert (Hlog : exists post,
               log_of (train cfg)
               = (config_lines cfg ++ setup_log cfg cls ++ loop_log cfg 0 done) ++ post
               /\ List.filter is_batch_event post = []).
    { rewrite Heq. destruct (_ && _).
      - exists []. rewrite app_nil_r. split; reflexivity.
      - rewrite log_of_finish. eexists. split; reflexivity. }
    destruct Hlog as (post & -> & Hpost).
    rewrite !List.filter_app, Hpost, config_lines_no_batch_event,
      loop_log_batch_events, app_nil_r.
    reflexivity.
  - exists []. split; [apply prefix_nil|].
    rewrite train_eq. cbv zeta.
    change (model_type (lowered cfg)) with (Py.lower (model_type cfg)).
    rewrite Hcls. apply config_lines_no_batch_event.
Qed.

End BatchOperations.

(** C1 does not hold for train_steps = -1: the accuracy array is empty, the
    first batch goes through the six operations and the write of its
    accuracy raises IndexError, so no accuracy is recorded for it. *)
Lemma C1_counterexample_negative_train_steps :
  let T := toy [two_examples] always_right false in
  let cfg := small_config "rnn" (-1) in
  let r := @train T cfg in
  outcome_of r = Raise IndexError /\
  List.filter is_batch_event (log_of r)
  = [ Draw 0 two_examples;
      Forward two_examples.1 (always_right 0 two_examples.1);
      Loss (always_right 0 two_examples.1) two_examples.2;
      Zero_grad; Backward; Clip_grad_norm (max_norm cfg); Optimizer_step ] /\
  ~ exists done : list (batch * tensor2),
      List.filter is_batch_event (log_of r) = batch_blocks cfg 0 done.
Proof.
  cbv zeta. split; [reflexivity|]. split; [reflexivity|].
  intros [done Hdone].
  assert (Hlen : length (List.filter is_batch_event
                   (log_of (@train (toy [two_examples] always_right false)
                              (small_config "rnn" (-1))))) = 7%nat) by reflexivity.
  rewrite Hdone in Hlen.
  destruct done as [|[b y] done]; [discriminate|].
  vm_compute in Hdone. inversion Hdone.
Qed.

Lemma C1_witness :
  0 <= train_steps (small_config "rnn" 3) /\
  exists done : list (batch * tensor2),
    done.*1 `prefix_of`
      @batches_of (toy (replicate 8 two_examples) always_right false)
        (small_config "rnn" 3) /\
    List.filter is_batch_event
      (log_of (@train (toy (replicate 8 two_examples) always_right false)
                 (small_config "rnn" 3)))
    = batch_blocks (small_config "rnn" 3) 0 done.
Proof.
  split; [cbn; lia|].
  apply (@C1_batch_operations_in_order
           (toy (replicate 8 two_examples) always_right false) (small_config "rnn" 3)).
  cbn. lia.
Defined.

(* ================================================================== *)
(** * argmax and accuracy *)

Section Accuracy.

Lemma argmax_from_spec (a : list Q) : forall best_i best i,
  let r := Py.argmax_from best_i best i a in
  let m := nth (r - i) a best in
  (r = best_i /\ Forall (fun x => (x <= best)%Q) a) \/
  ((i <= r)%nat /\ (r - i < length a)%nat /\ (best < m)%Q /\
   Forall (fun x => (x <= m)%Q) a /\
   forall j x, (j < r - i)%nat -> a !! j = Some x -> (x < m)%Q).
Proof.
  induction a as [|x a IH]; intros best_i best i; cbv zeta.
  - left. split; [reflexivity|constructor].
  - cbn [Py.argmax_from]. destruct (Qle_bool x best) eqn:Hle.
    + apply Qle_bool_iff in Hle.
      destruct (IH best_i best (S i)) as [[Hr Hall]|(Hi & Hlt & Hb & Hall & Hfirst)].
      * left. split; [exact Hr|]. constructor; assumption.
      * right. set (r := Py.argmax_from best_i best (S i) a) in *.
        replace (r - i)%nat with (S (r - S i)) by lia. cbn [nth length].
        split; [lia|]. split; [lia|]. split; [exact Hb|].
        split; [constructor; [lra|exact Hall]|].
        intros [|j] y Hj Hy; cbn in Hy.
        -- inversion Hy; subst. lra.
        -- apply (Hfirst j y); [lia|exact Hy].
    + assert (Hlt : (best < x)%Q).
      { apply Qnot_le_lt. intros Hc. apply Qle_bool_iff in Hc. congruence. }
      destruct (IH i x (S i)) as [[Hr Hall]|(Hi & Hlen & Hb & Hall & Hfirst)].
      * right. rewrite Hr, Nat.sub_diag. cbn [nth length].
        split; [lia|]. split; [lia|]. split; [exact Hlt|].
        split; [constructor; [lra|exact Hall]|].
        intros j y Hj. lia.
      * right. set (r := Py.argmax_from i x (S i) a) in *.
        replace (r - i)%nat with (S (r - S i)) by lia. cbn [nth length].
        assert (Hnth : nth (r - S i) a best = nth (r - S i) a x)
          by (apply nth_indep; exact Hlen).
        rewrite Hnth.
        split; [lia|]. split; [lia|]. split; [lra|].
        split; [constructor; [lra|exact Hall]|].
        intros [|j] y Hj Hy; cbn in Hy.
        -- inversion Hy; subst. exact Hb.
        -- apply (Hfirst j y); [lia|exact Hy].
Qed.

(** [argmax] of a non-empty array is the first index of a maximal
    entry. *)
Lemma argmax_spec (a : list Q) :
  a <> [] ->
  exists best,
    a !! Py.argmax a = Some best /\
    (forall j x, a !! j = Some x -> (x <= best)%Q) /\
    (forall j x, (j < Py.argmax a)%nat -> a !! j = Some x -> (x < best)%Q).
Proof.
  destruct a as [|x a]; [congruence|]. intros _. cbn [Py.argmax].
  destruct (argmax_from_spec a 0%nat x 1%nat)
    as [[Hr Hall]|(Hi & Hlen & Hb & Hall & Hfirst)]; cbv zeta in *.
  - rewrite Hr. exists x. split; [reflexivity|]. split; [|intros; lia].
    intros [|j] y Hy; cbn in Hy.
    + inversion Hy; subst. lra.
    + rewrite Forall_forall in Hall. apply Hall. eapply list_elem_of_lookup_2. exact Hy.
  - set (r := Py.argmax_from 0 x 1 a) in *.
    exists (nth (r - 1) a x).
    split.
    { replace r with (S (r - 1)) at 1 by lia. cbn.
      destruct (nth_lookup_or_length a (r - 1) x) as [Hs|Hge]; [exact Hs|lia]. }
    split.
    + intros [|j] y Hy; cbn in Hy.
      * inversion Hy; subst. lra.
      * rewrite Forall_forall in Hall. apply Hall.
        eapply list_elem_of_lookup_2. exact Hy.
    + intros [|j] y Hj Hy; cbn in Hy.
      * inversion Hy; subst. exact Hb.
      * apply (Hfirst j y); [lia|exact Hy].
Qed.


Lemma count_correct_eq (predictions : tensor2) : forall label : list Z,
  count_correct predictions label = Z.of_nat (correct_predictions predictions label).
Proof.
  unfold count_correct, correct_predictions.
  induction predictions as [|row rows IH]; intros [|y label]; try reflexivity.
  cbn [zip_with fold_right]. rewrite IH.
  change (zip (row :: rows) (y :: label)) with ((row, y) :: zip rows label).
  rewrite filter_cons. cbn [fst snd].
  destruct (Z.eqb_spec (Z.of_nat (Py.argmax row)) y) as [Heq|Hne].
  - rewrite decide_True by exact Heq. cbn [length]. lia.
  - rewrite decide_False by exact Hne. lia.
Qed.

Lemma correct_predictions_le (predictions : tensor2) (label : list Z) :
  (correct_predictions predictions label <= length predictions)%nat /\
  (correct_predictions predictions label <= length label)%nat.
Proof.
  unfold correct_predictions.
  pose proof (length_filter (fun ry : list Q * Z => Z.of_nat (Py.argmax ry.1) = ry.2)
                (zip predictions label)) as Hf.
  rewrite length_zip_with in Hf. lia.
Qed.

Lemma accuracy_unit_range predictions label cfg :
  0 < batch_size cfg ->
  (Z.of_nat (length predictions) <= batch_size cfg \/
   Z.of_nat (length label) <= batch_size cfg) ->
  unit_range (accuracy predictions label cfg).
Proof.
  intros Hpos Hlen. unfold accuracy, unit_range. rewrite count_correct_eq.
  destruct (correct_predictions_le predictions label) as [H1 H2].
  assert (Hq : (0 < inject_Z (batch_size cfg))%Q).
  { change 0%Q with (inject_Z 0). rewrite <- Zlt_Qlt. exact Hpos. }
  split.
  - apply Qle_shift_div_l; [exact Hq|]. rewrite Qmult_0_l.
    change 0%Q with (inject_Z 0). rewrite <- Zle_Qle. lia.
  - apply Qle_shift_div_r; [exact Hq|]. rewrite Qmult_1_l.
    rewrite <- Zle_Qle. lia.
Qed.


End Accuracy.


(* ================================================================== *)
(** * The moving average and the bounds of the loop *)

Section MovingAverage.

Context `{Torch}.

(** In an array of five entries or more, the slice taken at one of the
    first four steps is empty: its start wraps around to the end. *)
Lemma slice_first_steps_empty (a : list Q) (step : nat) :
  (5 <= length a)%nat -> (step < 4)%nat ->
  Py.slice a (Z.of_nat step - 4) (Z.of_nat step + 1) = [].
Proof.
  intros Hlen Hstep. unfold Py.slice, Py.clip_index.
  destruct (Z.ltb_spec (Z.of_nat step - 4) 0) as [_|Hc]; [|lia].
  destruct (Z.ltb_spec (Z.of_nat step + 1) 0) as [Hc|_]; [lia|].
  replace (Z.to_nat _) with 0%nat by lia. apply take_0.
Qed.

Lemma sum_unit_range (a : list Q) :
  Forall unit_range a -> (0 <= Py.sum a)%Q /\ (Py.sum a <= inject_Z (Z.of_nat (length a)))%Q.
Proof.
  induction 1 as [|x a [Hx0 Hx1] _ [IH0 IH1]]; cbn [Py.sum fold_right length].
  - split; unfold Qle; cbn; lia.
  - fold (Py.sum a). rewrite Nat2Z.inj_succ. unfold Z.succ. rewrite inject_Z_plus.
    change (inject_Z 1) with 1%Q. split; lra.
Qed.

Lemma slice_unit_range (a : list Q) start stop :
  Forall unit_range a -> Forall unit_range (Py.slice a start stop).
Proof. intros Ha. unfold Py.slice. apply Forall_take, Forall_drop, Ha. Qed.

Lemma length_slice_le (a : list Q) start stop :
  (length (Py.slice a start stop) <= length a)%nat.
Proof. unfold Py.slice. rewrite length_take, length_drop. lia. Qed.

(** With accuracies between 0 and 1, the moving average is below 1 at
    each of the first four steps: the slice holds four entries at most
    there. *)
Lemma moving_average_first_steps (a : list Q) (step : nat) :
  Forall unit_range a -> (step < 4)%nat ->
  Qeq_bool (moving_average a step) 1 = false.
Proof.
  intros Ha Hstep.
  destruct (Qeq_bool (moving_average a step) 1) eqn:Heq; [|reflexivity].
  exfalso. apply Qeq_bool_iff in Heq. unfold moving_average in Heq.
  destruct (le_lt_dec 5 (length a)) as [Hlen|Hlen].
  - rewrite slice_first_steps_empty in Heq by assumption. cbn in Heq.
    revert Heq. unfold Qeq. cbn. lia.
  - set (s := Py.slice a (Z.of_nat step - 4) (Z.of_nat step + 1)) in *.
    destruct (sum_unit_range s) as [_ Hs]; [apply slice_unit_range, Ha|].
    assert (Hl : (inject_Z (Z.of_nat (length s)) <= 4)%Q).
    { change 4%Q with (inject_Z 4). rewrite <- Zle_Qle.
      pose proof (length_slice_le a (Z.of_nat step - 4) (Z.of_nat step + 1)). subst s. lia. }
    assert (Hs5 : (Py.sum s == 5)%Q).
    { rewrite <- (Qmult_div_r (Py.sum s) 5) by (intros Hc; discriminate).
      unfold Qdiv in *. rewrite Heq. reflexivity. }
    lra.
Qed.

Lemma zeros_unit_range k : Forall unit_range (zeros k).
Proof. apply Forall_replicate. split; lra. Qed.

Lemma array_at_unit_range n accs i :
  Forall unit_range accs -> Forall unit_range (array_at n accs i).
Proof.
  intros Ha. unfold array_at. apply Forall_app. split;
    [apply Forall_take, Ha|apply zeros_unit_range].
Qed.

Lemma length_array_at n accs i :
  (i < length accs)%nat -> (length accs <= n)%nat -> length (array_at n accs i) = n.
Proof.
  intros Hi Hn. unfold array_at, zeros.
  rewrite length_app, length_take, length_replicate. lia.
Qed.

Lemma accuracies_unit_range cfg (done : list (batch * tensor2)) :
  0 < batch_size cfg ->
  Forall (fun b : batch => Z.of_nat (length b.2) <= batch_size cfg) done.*1 ->
  Forall unit_range (accuracies cfg done).
Proof.
  intros Hpos Hall. unfold accuracies.
  induction done as [|[b y] done IH]; [constructor|].
  cbn in Hall. inversion Hall as [|? ? Hb Hrest]; subst.
  cbn [map]. constructor; [|apply IH, Hrest].
  apply accuracy_unit_range; [exact Hpos|]. right. exact Hb.
Qed.

Lemma length_accuracies cfg (done : list (batch * tensor2)) :
  length (accuracies cfg done) = length done.
Proof. apply length_map. Qed.

End MovingAverage.

(* ================================================================== *)
(** * The number of steps and the early stop *)

Section LoopBounds.

Context `{Torch}.

Lemma not_in_config_lines cfg e : is_print e = false -> ~ In e (config_lines cfg).
Proof.
  intros He Hin.
  pose proof (proj1 (List.Forall_forall _ _) (config_lines_prints cfg) e Hin) as Hp.
  cbv beta in Hp. congruence.
Qed.

Lemma last_with_zeros (accs : list Q) j :
  (0 < length accs + j)%nat -> exists x, last (accs ++ zeros j) = Some x.
Proof.
  intros Hlen. destruct (last (accs ++ zeros j)) as [x|] eqn:Hl; [eauto|].
  apply last_None in Hl. apply (f_equal length) in Hl.
  unfold zeros in Hl. rewrite length_app, length_replicate in Hl. cbn in Hl. lia.
Qed.

(** C4, as amended.  With train_steps >= 0 and a loader that yields
    train_steps + 1 batches or more, the loop processes at most
    train_steps + 1 batches: it goes on only while the step index differs
    from train_steps and the moving average train_acc[step-4:step+1].sum()/5
    differs from 1.0, and it is left on a step where one of the two
    holds; so every write train_acc[step] is within the array of length
    train_steps + 1.  At steps 0 to 3 the slice has a negative start
    index; it is empty when train_steps >= 4, and in any case, when no
    batch has more than batch_size (> 0) examples, the moving average
    differs from 1.0 there: the early stop does not fire during the
    first four steps. *)
Theorem C4_loop_bounds_and_early_stop (cfg : Config) :
  0 <= train_steps cfg ->
  train_steps cfg + 1 <= Z.of_nat (length (batches_of cfg)) ->
  exists done : list (batch * tensor2),
    let n := Z.to_nat (train_steps cfg + 1) in
    let k := length done in
    let accs := accuracies cfg done in
    done.*1 `prefix_of` batches_of cfg /\
    List.filter is_batch_event (log_of (train cfg)) = batch_blocks cfg 0 done /\
    (k <= n)%nat /\
    outcome_of (train cfg) <> Raise IndexError /\
    (forall i a, In (Set_acc i a) (log_of (train cfg)) -> (i < n)%nat) /\
    (forall i, (S i < k)%nat -> stops cfg (array_at n accs i) i = false) /\
    (forall x, outcome_of (train cfg) = Return x ->
       (0 < k)%nat /\ stops cfg (array_at n accs (k - 1)) (k - 1) = true) /\
    (forall i, (i < 4)%nat -> (i < k)%nat ->
       Z.of_nat i - 4 < 0 /\
       (4 <= train_steps cfg ->
        Py.slice (array_at n accs i) (Z.of_nat i - 4) (Z.of_nat i + 1) = []) /\
       (0 < batch_size cfg ->
        Forall (fun b : batch => Z.of_nat (length b.2) <= batch_size cfg) (batches_of cfg) ->
        Qeq_bool (moving_average (array_at n accs i) i) 1 = false)).
Proof.
  intros Hts Henough.
  destruct (class_of (Py.lower (model_type cfg))) as [cls|] eqn:Hcls.
  2:{ (* the assertion fails: no batch is drawn *)
    assert (Heq : train cfg = (Raise AssertionError, lowered cfg, config_lines cfg)).
    { rewrite train_eq. cbv zeta.
      change (model_type (lowered cfg)) with (Py.lower (model_type cfg)).
      rewrite Hcls. reflexivity. }
    exists []. cbv zeta. rewrite Heq. cbn [outcome_of log_of fst snd length].
    split; [apply prefix_nil|]. split; [apply config_lines_no_batch_event|].
    split; [lia|]. split; [discriminate|].
    split; [intros i a Hin; exfalso; revert Hin; apply not_in_config_lines; reflexivity|].
    split; [intros; lia|]. split; [discriminate|]. intros; lia. }
  destruct (Z_le_gt_dec (batch_size cfg) 0) as [Hbad|Hbs].
  { (* the loader is refused: no batch is drawn *)
    exists []. cbv zeta. rewrite (train_bad_batch_size cfg cls Hcls Hbad).
    cbn [outcome_of log_of fst snd length].
    split; [apply prefix_nil|].
    split; [rewrite List.filter_app, config_lines_no_batch_event; reflexivity|].
    split; [lia|]. split; [discriminate|].
    split.
    { intros i a Hin. exfalso. rewrite in_app_iff in Hin. destruct Hin as [Hin|Hin].
      - revert Hin. apply not_in_config_lines. reflexivity.
      - cbn in Hin. intuition discriminate. }
    split; [intros; lia|]. split; [discriminate|]. intros; lia. }
  destruct (Qlt_le_dec (learning_rate cfg) 0) as [Hneg|Hlr].
  { (* the optimizer is refused: no batch is drawn *)
    exists []. cbv zeta. rewrite (train_bad_learning_rate cfg cls Hcls ltac:(lia) Hneg).
    cbn [outcome_of log_of fst snd length].
    split; [apply prefix_nil|].
    split; [rewrite List.filter_app, config_lines_no_batch_event; reflexivity|].
    split; [lia|]. split; [discriminate|].
    split.
    { intros i a Hin. exfalso. rewrite in_app_iff in Hin. destruct Hin as [Hin|Hin].
      - revert Hin. apply not_in_config_lines. reflexivity.
      - cbn in Hin. intuition discriminate. }
    split; [intros; lia|]. split; [discriminate|]. intros; lia. }
  destruct (train_run cfg cls Hcls ltac:(lia) Hlr Hts)
    as (done & Hpre & Hk & Hgo & Hend & Heq).
  cbv zeta in *. exists done.
  set (n := Z.to_nat (train_steps cfg + 1)) in *.
  set (accs := accuracies cfg done) in *.
  assert (Hlog : exists post,
             log_of (train cfg)
             = config_lines cfg ++ setup_log cfg cls ++ loop_log cfg 0 done ++ post
             /\ (post = [] \/ post = finish_log (lowered cfg) (accs ++ zeros (n - length done)))).
  { rewrite Heq. destruct (_ && _).
    - exists []. rewrite app_nil_r. split; [reflexivity|tauto].
    - rewrite log_of_finish. eexists. rewrite <- !app_assoc. split; [reflexivity|tauto]. }
  destruct Hlog as (post & Hlog & Hpost).
  split; [rewrite Hpre; apply prefix_take|].
  split.
  { rewrite Hlog, !List.filter_app, config_lines_no_batch_event, loop_log_batch_events.
    destruct Hpost as [->| ->]; cbn; rewrite app_nil_r; reflexivity. }
  split; [exact Hk|].
  split.
  { rewrite Heq. destruct (_ && _); [discriminate|].
    unfold finish. destruct (experiment_flag (lowered cfg)); [|discriminate].
    destruct (last_with_zeros accs (n - length done)) as [x ->]; [|discriminate].
    subst accs n. rewrite length_accuracies. lia. }
  split.
  { intros i a Hin. rewrite Hlog in Hin. rewrite !in_app_iff in Hin.
    destruct Hin as [Hin|[Hin|[Hin|Hin]]].
    - exfalso. revert Hin. apply not_in_config_lines. reflexivity.
    - cbn in Hin. intuition discriminate.
    - apply loop_log_writes in Hin. destruct Hin as [_ Hlk].
      apply lookup_lt_Some in Hlk. rewrite length_accuracies in Hlk. lia.
    - destruct Hpost as [->| ->]; cbn in Hin; intuition discriminate. }
  split; [exact Hgo|].
  split.
  { intros x Hx.
    assert (Hpos : (0 < length done)%nat).
    { destruct (le_lt_dec (length (batches_of cfg)) (length done)) as [Hall|Hless].
      - subst n. lia.
      - apply (Hend Hless). }
    split; [exact Hpos|].
    destruct (le_lt_dec (length (batches_of cfg)) (length done)) as [Hall|Hless].
    - (* all of the train_steps + 1 steps were taken *)
      unfold stops. replace (Z.of_nat (length done - 1)) with (train_steps cfg)
        by (subst n; lia).
      rewrite Z.eqb_refl. reflexivity.
    - apply (Hend Hless).
      intros Hpe. rewrite Heq, Hpe in Hx.
      destruct (Nat.ltb_spec 0 (length done)) as [_|Hz]; [discriminate|lia]. }
  intros i Hi4 Hik. split; [lia|]. split.
  - intros Hts4. apply slice_first_steps_empty; [|exact Hi4].
    rewrite length_array_at; subst accs; rewrite ?length_accuracies; lia.
  - intros Hpos Hall. apply moving_average_first_steps; [|exact Hi4].
    apply array_at_unit_range, accuracies_unit_range; [exact Hpos|].
    rewrite Hpre. apply Forall_take, Hall.
Qed.

End LoopBounds.

(** C4 does not hold as stated: with train_steps = 3 the array has four
    entries, and at step 0 the slice train_acc[-4:1] is train_acc[0:1], which
    holds the accuracy just written. *)
Lemma C4_counterexample_short_array :
  let T := toy (replicate 8 two_examples) always_right false in
  let cfg := small_config "rnn" 3 in
  let n := Z.to_nat (train_steps cfg + 1) in
  let accs := recorded_accs (log_of (@train T cfg)) in
  0 <= train_steps cfg /\
  train_steps cfg + 1 <= Z.of_nat (length (@batches_of T cfg)) /\
  array_at n accs 0 = [2 # 2; 0; 0; 0]%Q /\
  Py.slice (array_at n accs 0) (Z.of_nat 0 - 4) (Z.of_nat 0 + 1) = [2 # 2]%Q /\
  Py.slice (array_at n accs 0) (Z.of_nat 0 - 4) (Z.of_nat 0 + 1) <> [].
Proof.
  cbv zeta. split; [cbn; lia|]. split; [cbn; lia|].
  split; [reflexivity|]. split; [reflexivity|]. discriminate.
Qed.

Lemma C4_witness :
  let T := toy (replicate 8 two_examples) always_right false in
  let cfg := small_config "rnn" 7 in
  0 <= train_steps cfg /\
  train_steps cfg + 1 <= Z.of_nat (length (@batches_of T cfg)) /\
  outcome_of (@train T cfg) <> Raise IndexError /\
  forall i a, In (Set_acc i a) (log_of (@train T cfg)) -> (i < 8)%nat.
Proof.
  cbv zeta.
  assert (H1 : 0 <= train_steps (small_config "rnn" 7)) by (cbn; lia).
  assert (H2 : train_steps (small_config "rnn" 7) + 1
               <= Z.of_nat (length (@batches_of
                    (toy (replicate 8 two_examples) always_right false)
                    (small_config "rnn" 7)))) by (cbn; lia).
  split; [exact H1|]. split; [exact H2|].
  destruct (@C4_loop_bounds_and_early_stop
              (toy (replicate 8 two_examples) always_right false)
              (small_config "rnn" 7) H1 H2)
    as (done & _ & _ & _ & Hne & Hin & _).
  split; [exact Hne|exact Hin].
Defined.

(* ================================================================== *)
(** * The statistics of a run *)

Section Statistics.

Context `{Torch}.

(** The loop never changes the length of the accuracy array. *)
Lemma loop_length cfg batches : forall step v c v',
  outcome_of (for_enumerate (train_step cfg) step batches v c) = Return v' ->
  length (the_train_acc v') = length (the_train_acc v).
Proof.
  induction batches as [|b rest IH]; intros step v c v'.
  - cbn. intros [= <-]. reflexivity.
  - rewrite for_enumerate_cons, train_step_eq. cbv zeta.
    destruct (step <? length (the_train_acc v))%nat;
      [destruct (print_every cfg =? 0)|]; cbn [outcome_of fst]; try discriminate.
    destruct (stops cfg _ step); cbn [outcome_of fst].
    + intros [= <-]. unfold after_step. cbn. apply length_insert.
    + intros Hr. rewrite (IH _ _ _ _ Hr). unfold after_step. cbn. apply length_insert.
Qed.

(** A run that returns statistics passed the assertion and had
    train_steps >= 0, a positive batch size and a learning rate that is
    not negative. *)
Lemma train_returns_stats cfg stats c' log :
  train cfg = (Return (Some stats), c', log) ->
  (exists cls, class_of (Py.lower (model_type cfg)) = Some cls) /\
  0 <= train_steps cfg /\ 0 < batch_size cfg /\ (0 <= learning_rate cfg)%Q.
Proof.
  rewrite train_eq. cbv zeta.
  change (model_type (lowered cfg)) with (Py.lower (model_type cfg)).
  change (train_steps (lowered cfg)) with (train_steps cfg).
  destruct (class_of _) as [cls|]; [|discriminate].
  change (batch_size (lowered cfg)) with (batch_size cfg).
  destruct (Z.leb_spec (batch_size cfg) 0) as [|Hbs]; [discriminate|].
  change (learning_rate (lowered cfg)) with (learning_rate cfg).
  destruct (Qle_bool 0 (learning_rate cfg)) eqn:Hlr; cbn [negb]; [|discriminate].
  apply Qle_bool_iff in Hlr.
  destruct (Z.ltb_spec (train_steps cfg + 1) 0) as [|Hge]; [discriminate|].
  pose proof (loop_length (lowered cfg) (batches_of (lowered cfg)) 0
                (initial_vars (lowered cfg) cls) (lowered cfg)) as Hlen.
  destruct (for_enumerate _ _ _ _ _) as [[[v|e] c2] l]; [|discriminate].
  specialize (Hlen v eq_refl). cbn in Hlen. unfold zeros in Hlen.
  rewrite length_replicate in Hlen.
  change (train_steps (lowered cfg)) with (train_steps cfg) in Hlen.
  unfold finish. destruct (experiment_flag _); [|discriminate].
  destruct (last (the_train_acc v)) as [x|] eqn:Hlast; [|discriminate].
  intros _. split; [eauto|]. split; [|split; [exact Hbs|exact Hlr]].
  destruct (the_train_acc v); [discriminate|]. cbn in Hlen. lia.
Qed.

Lemma last_zeros (accs : list Q) j : (0 < j)%nat -> last (accs ++ zeros j) = Some 0%Q.
Proof.
  intros Hj. destruct j as [|j]; [lia|]. unfold zeros.
  rewrite replicate_S_end, app_assoc. apply last_snoc.
Qed.

(** C10. Whenever [train] returns statistics: 'accs' is the accuracy
    array, the one saved to disk, which has train_steps + 1 entries and
    holds every recorded accuracy at its step; 'num steps' is
    train_steps + 1, whether or not training stopped early; 'best acc'
    is the maximum of the array and 'step best acc' the smallest index
    that attains it; 'last acc' is the final entry, which is 0 when no
    accuracy was recorded at step train_steps. *)
Theorem C10_returned_statistics (cfg : Config) (stats : dict) (c' : Config)
    (log : list event) :
  train cfg = (Return (Some stats), c', log) ->
  exists train_acc : list Q,
    In (Np_save 159
          ("train_acc_" ++ Py.lower (model_type cfg) ++ Py.str_of_int (input_length cfg))
          (VArray train_acc)) log /\
    (forall i a, In (Set_acc i a) log -> train_acc !! i = Some a) /\
    dict_get stats "accs" = Some (VArray train_acc) /\
    Z.of_nat (length train_acc) = train_steps cfg + 1 /\
    dict_get stats "num steps" = Some (VInt (train_steps cfg + 1)) /\
    (exists best,
       dict_get stats "best acc" = Some (VFloat best) /\
       dict_get stats "step best acc" = Some (VInt (Z.of_nat (Py.argmax train_acc))) /\
       train_acc !! Py.argmax train_acc = Some best /\
       (forall j x, train_acc !! j = Some x -> (x <= best)%Q) /\
       (forall j x, (j < Py.argmax train_acc)%nat -> train_acc !! j = Some x ->
                    (x < best)%Q)) /\
    (exists final,
       dict_get stats "last acc" = Some (VFloat final) /\
       last train_acc = Some final /\
       ((forall a, ~ In (Set_acc (Z.to_nat (train_steps cfg)) a) log) -> final = 0%Q)).
Proof.
  intros Htrain. destruct (train_returns_stats _ _ _ _ Htrain) as ([cls Hcls] & Hts & Hbs & Hlr).
  destruct (train_run cfg cls Hcls Hbs Hlr Hts) as (done & Hpre & Hk & _ & _ & Heq).
  cbv zeta in *. rewrite Htrain in Heq.
  destruct (_ && _); [discriminate|].
  set (n := Z.to_nat (train_steps cfg + 1)) in *.
  set (accs := accuracies cfg done) in *.
  set (train_acc := accs ++ zeros (n - length done)) in *.
  unfold finish in Heq. destruct (experiment_flag (lowered cfg)); [|discriminate].
  destruct (last train_acc) as [final|] eqn:Hlast; [|discriminate].
  assert (Hstats : stats = stats_of train_acc final) by congruence.
  assert (Hlog : log = (config_lines cfg ++ setup_log cfg cls ++ loop_log cfg 0 done)
                       ++ finish_log (lowered cfg) train_acc) by congruence.
  clear Heq Htrain. subst stats log.
  assert (Hlen : length train_acc = n).
  { subst train_acc accs. unfold zeros.
    rewrite length_app, length_replicate, length_accuracies. lia. }
  exists train_acc.
  split.
  { rewrite in_app_iff. right. cbn. right. right. left. reflexivity. }
  split.
  { intros i a Hin. rewrite !in_app_iff in Hin.
    destruct Hin as [[Hin|[Hin|Hin]]|Hin].
    - exfalso. revert Hin. apply not_in_config_lines. reflexivity.
    - cbn in Hin. intuition discriminate.
    - apply loop_log_writes in Hin. destruct Hin as [_ Hlk].
      rewrite Nat.sub_0_r in Hlk. subst train_acc.
      apply lookup_app_l_Some. exact Hlk.
    - cbn in Hin. intuition discriminate. }
  split; [reflexivity|].
  split; [rewrite Hlen; subst n; lia|].
  split; [cbn; rewrite Hlen; do 2 f_equal; subst n; lia|].
  split.
  { destruct (argmax_spec train_acc) as (best & Hb & Hmax & Hfirst).
    { intros Hnil. rewrite Hnil in Hlast. discriminate. }
    exists best. cbn [stats_of dict_get String.eqb Ascii.eqb Bool.eqb].
    rewrite (nth_lookup_Some _ _ _ _ Hb).
    split; [reflexivity|]. split; [reflexivity|]. split; [exact Hb|].
    split; [exact Hmax|exact Hfirst]. }
  exists final. split; [reflexivity|]. split; [exact Hlast|].
  intros Hno.
  assert (Hkn : (length done < n)%nat).
  { destruct (le_lt_dec n (length done)) as [Hge|Hlt]; [|exact Hlt]. exfalso.
    assert (Hex : exists a, accs !! Z.to_nat (train_steps cfg) = Some a).
    { apply lookup_lt_is_Some. subst accs. rewrite length_accuracies. subst n. lia. }
    destruct Hex as [a Ha]. apply (Hno a).
    rewrite !in_app_iff. left. right. right.
    apply loop_log_writes. split; [lia|]. rewrite Nat.sub_0_r. exact Ha. }
  subst train_acc. rewrite last_zeros in Hlast by lia. congruence.
Qed.

End Statistics.

Lemma C10_witness :
  let T := toy (replicate 8 two_examples) always_right false in
  let cfg := small_config "LSTM" 7 in
  exists train_acc : list Q,
    dict_get (stats_of [2 # 2; 2 # 2; 2 # 2; 2 # 2; 2 # 2; 0; 0; 0]%Q 0%Q) "accs"
      = Some (VArray train_acc) /\
    Z.of_nat (length train_acc) = train_steps cfg + 1.
Proof.
  cbv zeta.
  destruct (@C10_returned_statistics
              (toy (replicate 8 two_examples) always_right false)
              (small_config "LSTM" 7)
              (stats_of [2 # 2; 2 # 2; 2 # 2; 2 # 2; 2 # 2; 0; 0; 0]%Q 0%Q)
              (lowered (small_config "LSTM" 7))
              (log_of (@train (toy (replicate 8 two_examples) always_right false)
                         (small_config "LSTM" 7)))
              eq_refl)
    as (train_acc & _ & _ & Haccs & Hlen & _).
  exists train_acc. split; [exact Haccs|exact Hlen].
Defined.

(* ================================================================== *)
(** * The sweep and the entry point *)

Section Sweep.

Context `{Torch}.

Lemma lower_ascii_idem c : Py.lower_ascii (Py.lower_ascii c) = Py.lower_ascii c.
Proof. destruct c as [[] [] [] [] [] [] [] []]; reflexivity. Qed.

Lemma lower_idem s : Py.lower (Py.lower s) = Py.lower s.
Proof.
  induction s as [|c s IH]; [reflexivity|].
  cbn [Py.lower]. rewrite lower_ascii_idem, IH. reflexivity.
Qed.

(** One pass of the sweep, by the outcome of its training run. *)
Lemma experiment_step_eq end_ sl stats c :
  experiment_step end_ sl stats c =
    match train (set_input_length c sl) with
    | (Return (Some d), c1, tr) =>
        let extended := fold_left (fun d kv => dict_set d kv.1 kv.2) (vars c1) d in
        (Return (stats ++ [extended]), c1,
         tr ++ [Np_save 189
                  ("experiment_stats_500" ++ model_type c1 ++ Py.str_of_int end_)
                  (VList (map VDict (stats ++ [extended])))])
    | (Return None, c1, tr) => (Raise TypeError, c1, tr)
    | (Raise e, c1, tr) => (Raise e, c1, tr)
    end.
Proof.
  unfold experiment_step, bind, get_config, put_config, emit, ret, raise.
  destruct (train (set_input_length c sl)) as [[[[d|]|e] c1] tr];
    cbn [app]; rewrite ?app_nil_r; reflexivity.
Qed.

Lemma experiment_eq c :
  experiment c =
    let r := for_each (experiment_step 500) (Py.range 50 (500 + 1) 50) [] c in
    (match outcome_of r with Return _ => Return tt | Raise e => Raise e end,
     config_of r, log_of r).
Proof.
  unfold experiment, bind, ret. cbv zeta.
  destruct (for_each _ _ _ _) as [[[stats|e] c1] l]; cbn; rewrite ?app_nil_r; reflexivity.
Qed.

Lemma single_run_eq c :
  (train ;;; ret tt) c =
    (match outcome_of (train c) with Return _ => Return tt | Raise e => Raise e end,
     config_of (train c), log_of (train c)).
Proof.
  unfold bind, ret.
  destruct (train c) as [[[stats|e] c1] l]; cbn; rewrite ?app_nil_r; reflexivity.
Qed.

Lemma range_sweep_lengths : Py.range 50 (500 + 1) 50 = sweep_lengths.
Proof. reflexivity. Qed.


(** A run returns its statistics when the model type passes the
    assertion, the batch size is positive, the learning rate is not
    negative, train_steps >= 0, print_every is not 0 and the experiment
    flag is set. *)
Lemma train_returns cfg cls :
  class_of (Py.lower (model_type cfg)) = Some cls ->
  0 < batch_size cfg -> (0 <= learning_rate cfg)%Q ->
  0 <= train_steps cfg -> print_every cfg <> 0 -> experiment_flag cfg = true ->
  exists stats tr, train cfg = (Return (Some stats), lowered cfg, tr).
Proof.
  intros Hcls Hbs Hlr Hts Hpe Hexp.
  destruct (train_run cfg cls Hcls Hbs Hlr Hts) as (done & _ & Hk & _ & _ & Heq).
  cbv zeta in Heq. rewrite Heq.
  destruct (Z.eqb_spec (print_every cfg) 0) as [|_]; [contradiction|]. cbn [andb].
  unfold finish. change (experiment_flag (lowered cfg)) with (experiment_flag cfg).
  rewrite Hexp.
  destruct (last_with_zeros (accuracies cfg done)
              (Z.to_nat (train_steps cfg + 1) - length done)) as [x ->].
  { rewrite length_accuracies. lia. }
  eauto.
Qed.

Lemma for_each_returns sls : forall acc c cls,
  class_of (Py.lower (model_type c)) = Some cls ->
  0 < batch_size c -> (0 <= learning_rate c)%Q ->
  0 <= train_steps c -> print_every c <> 0 -> experiment_flag c = true ->
  exists stats,
    outcome_of (for_each (experiment_step 500) sls acc c) = Return stats /\
    length stats = (length acc + length sls)%nat.
Proof.
  induction sls as [|sl sls IH]; intros acc c cls Hcls Hbs Hlr Hts Hpe Hexp.
  - cbn. exists acc. split; [reflexivity|lia].
  - rewrite for_each_cons, experiment_step_eq.
    destruct (train_returns (set_input_length c sl) cls Hcls Hbs Hlr Hts Hpe Hexp)
      as (d & tr & ->).
    cbv zeta. cbn [outcome_of fst].
    set (acc' := acc ++ [_]).
    destruct (IH acc' (lowered (set_input_length c sl)) cls) as (stats & Hout & Hlen);
      try assumption.
    { cbn. rewrite lower_idem. exact Hcls. }
    exists stats. split; [exact Hout|].
    rewrite Hlen. subst acc'. rewrite length_app. cbn. lia.
Qed.


(** C9. [--experiment] is declared with type=bool and default True:
    every non-empty string given for it, 'False' and '0' included,
    parses to True, so the entry point sweeps unless the empty string is
    given, and that is the only way to the single training run. *)
Theorem C9_experiment_flag_parsing (parsed : Config) (given : option string) :
  (forall s, s <> "" -> parse_experiment (Some s) = true) /\
  parse_experiment (Some "False") = true /\
  parse_experiment (Some "0") = true /\
  parse_experiment None = true /\
  (parse_experiment given = false <-> given = Some "") /\
  (given <> Some "" -> main parsed given = experiment (parse_args parsed given)) /\
  (given = Some "" -> main parsed given = (train ;;; ret tt) (parse_args parsed given)).
Proof.
  assert (Hiff : parse_experiment given = false <-> given = Some "").
  { destruct given as [[|c s]|]; cbn; split; congruence. }
  split; [intros [|c s] Hs; [congruence|reflexivity]|].
  split; [reflexivity|]. split; [reflexivity|]. split; [reflexivity|].
  split; [exact Hiff|]. split.
  - intros Hne. unfold main. cbn [experiment_flag parse_args].
    destruct (parse_experiment given) eqn:Hp; [reflexivity|].
    exfalso. apply Hne, Hiff. reflexivity.
  - intros ->. reflexivity.
Qed.

End Sweep.

(* ================================================================== *)
(** * The saved artifacts *)

Section Artifacts.

Context `{Torch}.

Lemma not_in_loop_events l e :
  Forall (fun e => is_loop_event e = true) l -> is_loop_event e = false -> ~ In e l.
Proof.
  intros Hl He Hin.
  pose proof (proj1 (List.Forall_forall _ _) Hl e Hin) as Hp. cbv beta in Hp. congruence.
Qed.

(** The only [numpy.save] of [train] is the one on line 159. *)
Lemma train_np_saves cfg ln f d :
  In (Np_save ln f d) (log_of (train cfg)) ->
  ln = 159%nat /\
  exists c ta,
    f = ("train_acc_" ++ model_type c ++ Py.str_of_int (input_length c))%string /\
    d = VArray ta.
Proof.
  destruct (train_log cfg) as (rest & -> & Hrest). rewrite in_app_iff.
  intros [Hin|Hin]; [exfalso; revert Hin; apply not_in_config_lines; reflexivity|].
  destruct (class_of _) as [cls|]; [|destruct Hrest as [-> _]; destruct Hin].
  destruct Hrest as (pre & l & post & k & -> & Hpre & Hl & _ & Hpost & _).
  rewrite !in_app_iff in Hin. destruct Hin as [Hin|[Hin|Hin]].
  - destruct Hpre as [->| ->]; cbn in Hin; intuition discriminate.
  - exfalso. revert Hin. apply not_in_loop_events; [exact Hl|reflexivity].
  - destruct Hpost as [->|[ta ->]]; [destruct Hin|].
    cbn in Hin. destruct Hin as [Hin|[Hin|[Hin|[]]]]; try discriminate.
    injection Hin as <- <- <-. split; [reflexivity|].
    exists (lowered cfg), ta. split; reflexivity.
Qed.

(** In the sweep, the only other one is the one on line 189. *)
Lemma sweep_np_saves sls : forall acc c ln f d,
  In (Np_save ln f d) (log_of (for_each (experiment_step 500) sls acc c)) ->
  (exists c', In (Np_save ln f d) (log_of (train c'))) \/
  (ln = 189%nat /\
   exists c' stats,
     f = ("experiment_stats_500" ++ model_type c' ++ "500")%string /\
     d = VList (map VDict stats)).
Proof.
  induction sls as [|sl sls IH]; intros acc c ln f d; [intros []|].
  rewrite for_each_cons, experiment_step_eq.
  destruct (train (set_input_length c sl)) as [[[[s|]|e] c1] tr] eqn:Htrain;
    cbv beta iota zeta; cbn [log_of snd].
  - rewrite !in_app_iff. intros [[Hin|Hin]|Hin].
    + left. exists (set_input_length c sl). rewrite Htrain. exact Hin.
    + right. destruct Hin as [Hin|[]]. injection Hin as <- <- <-.
      split; [reflexivity|]. eexists c1, _. split; reflexivity.
    + apply (IH _ _ _ _ _ Hin).
  - intros Hin. left. exists (set_input_length c sl). rewrite Htrain. exact Hin.
  - intros Hin. left. exists (set_input_length c sl). rewrite Htrain. exact Hin.
Qed.

(** Once the loop has returned, [train] prints, saves the model and
    saves the accuracy array the loop left, and nothing was saved
    before. *)
Lemma train_after_loop cfg cls v :
  class_of (Py.lower (model_type cfg)) = Some cls ->
  0 < batch_size cfg -> (0 <= learning_rate cfg)%Q -> -1 <= train_steps cfg ->
  outcome_of (training_loop cfg cls) = Return v ->
  exists l,
    log_of (train cfg) =
      l ++ [ Print Done_training;
             Torch_save (Py.lower (model_type cfg) ++ "_model.pt");
             Np_save 159
               ("train_acc_" ++ Py.lower (model_type cfg)
                  ++ Py.str_of_int (input_length cfg))
               (VArray (the_train_acc v)) ] /\
    List.filter is_save l = [] /\
    ~ In (Print Done_training) l.
Proof.
  intros Hcls Hbs Hlr Hts Hloop. unfold training_loop in Hloop.
  rewrite train_eq. cbv zeta.
  change (model_type (lowered cfg)) with (Py.lower (model_type cfg)). rewrite Hcls.
  change (batch_size (lowered cfg)) with (batch_size cfg).
  destruct (Z.leb_spec (batch_size cfg) 0) as [Hc|_]; [lia|].
  change (learning_rate (lowered cfg)) with (learning_rate cfg).
  rewrite (proj2 (Qle_bool_iff 0 (learning_rate cfg)) Hlr). cbn [negb].
  change (train_steps (lowered cfg)) with (train_steps cfg).
  destruct (Z.ltb_spec (train_steps cfg + 1) 0) as [Hc|_]; [lia|].
  change (batches_of (lowered cfg)) with (batches_of cfg).
  destruct (loop_any (lowered cfg) (batches_of cfg) 0
              (initial_vars (lowered cfg) cls) (lowered cfg)) as (_ & Hl & _).
  destruct (for_enumerate _ _ _ _ _) as [[[v'|e] c2] l];
    cbn [outcome_of log_of fst snd] in *; [|discriminate].
  injection Hloop as ->. rewrite log_of_finish.
  exists (config_lines cfg ++ setup_log (lowered cfg) cls ++ l).
  split; [rewrite <- !app_assoc; reflexivity|]. split.
  - rewrite !List.filter_app.
    rewrite (filter_none is_save _ _ (config_lines_prints cfg))
      by (intros [] ?; try reflexivity; discriminate).
    rewrite (filter_none is_save _ _ Hl) by apply loop_event_not_save.
    reflexivity.
  - rewrite !in_app_iff. intros [Hc|[Hc|Hc]].
    + cbn in Hc. intuition discriminate.
    + cbn in Hc. intuition discriminate.
    + revert Hc. apply not_in_loop_events; [exact Hl|reflexivity].
Qed.

(** C7. Once the training loop is over, [train] always saves exactly two
    artifacts and nothing else: the model to '<model_type>_model.pt' with
    torch.save, then the accuracy array the loop left to
    'train_acc_<model_type><input_length>' with numpy.save, the model
    type being in lower case by then; nothing is saved before.  This
    holds whenever the loop is reached (model type accepted, batch size
    positive, learning rate not negative, train_steps >= -1) and
    returns, and so for every run that returns.
    Over the whole script numpy.save is called from two places only:
    this one, with an accuracy array, and line 189 of [experiment], with
    the list of statistics. *)
Theorem C7_saved_artifacts (cfg : Config) (given : option string) :
  (forall cls v,
     class_of (Py.lower (model_type cfg)) = Some cls ->
     0 < batch_size cfg -> (0 <= learning_rate cfg)%Q -> -1 <= train_steps cfg ->
     outcome_of (training_loop cfg cls) = Return v ->
     exists l,
       log_of (train cfg) =
         l ++ [ Print Done_training;
                Torch_save (Py.lower (model_type cfg) ++ "_model.pt");
                Np_save 159
                  ("train_acc_" ++ Py.lower (model_type cfg)
                     ++ Py.str_of_int (input_length cfg))
                  (VArray (the_train_acc v)) ] /\
       List.filter is_save l = []) /\
  (forall x, outcome_of (train cfg) = Return x ->
     exists l train_acc,
       log_of (train cfg) =
         l ++ [ Print Done_training;
                Torch_save (Py.lower (model_type cfg) ++ "_model.pt");
                Np_save 159
                  ("train_acc_" ++ Py.lower (model_type cfg)
                     ++ Py.str_of_int (input_length cfg))
                  (VArray train_acc) ] /\
       List.filter is_save l = []) /\
  (forall ln f d, In (Np_save ln f d) (log_of (main cfg given)) ->
     (ln = 159%nat /\
      exists c ta,
        f = ("train_acc_" ++ model_type c ++ Py.str_of_int (input_length c))%string /\
        d = VArray ta) \/
     (ln = 189%nat /\
      exists c stats,
        f = ("experiment_stats_500" ++ model_type c ++ "500")%string /\
        d = VList (map VDict stats))).
Proof.
  split; [|split].
  - intros cls v Hcls Hbs Hlr Hts Hloop.
    destruct (train_after_loop cfg cls v Hcls Hbs Hlr Hts Hloop) as (l & Hlog & Hl & _).
    exists l. split; assumption.
  - intros x Hx.
    assert (Hloop : exists cls v,
               class_of (Py.lower (model_type cfg)) = Some cls /\
               0 < batch_size cfg /\ (0 <= learning_rate cfg)%Q /\
               -1 <= train_steps cfg /\
               outcome_of (training_loop cfg cls) = Return v).
    { revert Hx. rewrite train_eq. cbv zeta. unfold training_loop.
      change (model_type (lowered cfg)) with (Py.lower (model_type cfg)).
      destruct (class_of _) as [cls|]; [|discriminate].
      change (batch_size (lowered cfg)) with (batch_size cfg).
      destruct (Z.leb_spec (batch_size cfg) 0) as [|Hbs]; [discriminate|].
      change (learning_rate (lowered cfg)) with (learning_rate cfg).
      destruct (Qle_bool 0 (learning_rate cfg)) eqn:Hlr; cbn [negb]; [|discriminate].
      apply Qle_bool_iff in Hlr.
      change (train_steps (lowered cfg)) with (train_steps cfg).
      destruct (Z.ltb_spec (train_steps cfg + 1) 0) as [|Hts]; [discriminate|].
      change (batches_of (lowered cfg)) with (batches_of cfg).
      destruct (for_enumerate _ _ _ _ _) as [[[v|e] c2] l] eqn:Hloop; [|discriminate].
      intros _. exists cls, v.
      split; [reflexivity|]. split; [lia|]. split; [exact Hlr|]. split; [lia|].
      rewrite Hloop. reflexivity. }
    destruct Hloop as (cls & v & Hcls & Hbs & Hlr & Hts & Hloop).
    destruct (train_after_loop cfg cls v Hcls Hbs Hlr Hts Hloop) as (l & Hlog & Hl & _).
    exists l, (the_train_acc v). split; assumption.
  - intros ln f d. unfold main.
    destruct (experiment_flag (parse_args cfg given)).
    + rewrite experiment_eq. cbv zeta. cbn [log_of snd]. intros Hin.
      destruct (sweep_np_saves _ _ _ _ _ _ Hin) as [[c' Hc']|Hr]; [|right; exact Hr].
      left. apply (train_np_saves c'). exact Hc'.
    + rewrite single_run_eq. cbn [log_of snd]. intros Hin.
      left. apply (train_np_saves _ _ _ _ Hin).
Qed.

End Artifacts.

(* ================================================================== *)
(** * The statements on concrete runs *)

Lemma C2_witness :
  Py.lower (model_type (small_config "LSTM" 3)) = "lstm" /\
  List.filter is_construct
    (log_of (@train (toy (replicate 8 two_examples) always_right false)
               (small_config "LSTM" 3)))
  = [Construct LSTM (mkArgs 10 1 4 3 2 cpu)].
Proof.
  split; [reflexivity|].
  apply (@C2_one_model_constructed
           (toy (replicate 8 two_examples) always_right false) (small_config "LSTM" 3)).
  right. left. reflexivity.
Defined.


Lemma C7_witness :
  let T := toy (replicate 8 two_examples) always_right false in
  (exists x, outcome_of (@train T (small_config "LSTM" 3)) = Return x) /\
  exists l train_acc,
    log_of (@train T (small_config "LSTM" 3)) =
      l ++ [ Print Done_training;
             Torch_save "lstm_model.pt";
             Np_save 159 "train_acc_lstm10" (VArray train_acc) ] /\
    List.filter is_save l = [].
Proof.
  cbv zeta. split; [eexists; reflexivity|].
  apply (proj1 (proj2 (@C7_saved_artifacts
                         (toy (replicate 8 two_examples) always_right false)
                         (small_config "LSTM" 3) None))
           (Some (stats_of [2 # 2; 2 # 2; 2 # 2; 2 # 2]%Q (2 # 2)%Q))).
  reflexivity.
Defined.

Lemma C8_witness :
  let T := toy (replicate 8 two_examples) always_right false in
  Py.lower (model_type (small_config "GRU" 3)) <> "rnn" /\
  Py.lower (model_type (small_config "GRU" 3)) <> "lstm" /\
  Py.lower (model_type (small_config "GRU" 3)) <> "rrn" /\
  @train T (small_config "GRU" 3)
  = (Raise AssertionError, lowered (small_config "GRU" 3),
     config_lines (small_config "GRU" 3)) /\
  outcome_of (@train T (small_config "rrn" 3)) <> Raise AssertionError.
Proof.
  cbv zeta.
  assert (H1 : Py.lower (model_type (small_config "GRU" 3)) <> "rnn") by discriminate.
  assert (H2 : Py.lower (model_type (small_config "GRU" 3)) <> "lstm") by discriminate.
  assert (H3 : Py.lower (model_type (small_config "GRU" 3)) <> "rrn") by discriminate.
  split; [exact H1|]. split; [exact H2|]. split; [exact H3|]. split.
  - apply (proj1 (@C8_assertion_guards_train
                    (toy (replicate 8 two_examples) always_right false)
                    (small_config "GRU" 3)) H1 H2 H3).
  - apply (proj2 (@C8_assertion_guards_train
                    (toy (replicate 8 two_examples) always_right false)
                    (small_config "rrn" 3))).
    right. right. reflexivity.
Defined.

Lemma C9_witness :
  let T := toy (replicate 8 two_examples) always_right false in
  Some "False" <> Some "" /\
  @main T (small_config "rnn" 5) (Some "False")
  = @experiment T (@parse_args (small_config "rnn" 5) (Some "False")).
Proof.
  cbv zeta.
  assert (Hne : Some "False" <> Some "") by discriminate.
  split; [exact Hne|].
  destruct (@C9_experiment_flag_parsing
              (toy (replicate 8 two_examples) always_right false)
              (small_config "rnn" 5) (Some "False"))
    as (_ & _ & _ & _ & _ & Hexp & _).
  apply Hexp. exact Hne.
Defined.

(* ================================================================== *)
(** * How a training run ends *)

Section Outcomes.

Context `{Torch}.

(** With an empty accuracy array the first pass raises at its write. *)
Lemma loop_empty_array cfg step b rest v c :
  the_train_acc v = [] ->
  for_enumerate (train_step cfg) step (b :: rest) v c =
    (Raise IndexError, c, removelast (batch_ops cfg step b (forward (the_model v) b.1))).
Proof.
  intros Hnil. rewrite for_enumerate_cons, train_step_eq. cbv zeta.
  rewrite Hnil. reflexivity.
Qed.

Lemma train_run_drawn cfg (done : list (batch * tensor2)) :
  done.*1 = take (length done) (batches_of cfg) ->
  ((length done < length (batches_of cfg))%nat -> (0 < length done)%nat) ->
  (0 < length done)%nat <-> batches_of cfg <> [].
Proof.
  intros Hpre Hpos. split.
  - intros Hk Hnil. rewrite Hnil, take_nil in Hpre.
    apply (f_equal length) in Hpre. rewrite length_fmap in Hpre. cbn in Hpre. lia.
  - intros Hne. destruct (batches_of cfg) as [|b rest]; [congruence|].
    destruct (le_lt_dec (length (b :: rest)) (length done)) as [Hge|Hlt].
    + cbn in Hge. lia.
    + apply Hpos. exact Hlt.
Qed.

(** The ways a run can end, with the configurations that lead to each. *)
Lemma train_outcome_cases (cfg : Config) :
  let cls := class_of (Py.lower (model_type cfg)) in
  let bs := batch_size cfg in
  let lr := learning_rate cfg in
  let ts := train_steps cfg in
  let out := outcome_of (train cfg) in
  (cls = None /\ out = Raise AssertionError) \/
  (cls <> None /\ (bs <= 0 \/ (lr < 0)%Q \/ ts < -1) /\ out = Raise ValueError) \/
  (cls <> None /\ (0 < bs /\ (0 <= lr)%Q) /\ ts = -1 /\
   (batches_of cfg <> [] \/ experiment_flag cfg = true) /\ out = Raise IndexError) \/
  (cls <> None /\ (0 < bs /\ (0 <= lr)%Q) /\ ts = -1 /\ batches_of cfg = [] /\
   experiment_flag cfg = false /\ out = Return None) \/
  (cls <> None /\ (0 < bs /\ (0 <= lr)%Q) /\ 0 <= ts /\ print_every cfg = 0 /\
   batches_of cfg <> [] /\ out = Raise ZeroDivisionError) \/
  (cls <> None /\ (0 < bs /\ (0 <= lr)%Q) /\ 0 <= ts /\
   (print_every cfg <> 0 \/ batches_of cfg = []) /\
   exists x, out = Return x /\ (experiment_flag cfg = true <-> x <> None)).
Proof.
  cbv zeta.
  destruct (class_of (Py.lower (model_type cfg))) as [cls|] eqn:Hcls.
  2:{ left. split; [reflexivity|]. rewrite train_eq. cbv zeta.
      change (model_type (lowered cfg)) with (Py.lower (model_type cfg)).
      rewrite Hcls. reflexivity. }
  right. assert (Hsome : Some cls <> None) by discriminate.
  destruct (Z_le_gt_dec (batch_size cfg) 0) as [Hbad|Hbs].
  { left. rewrite (train_bad_batch_size cfg cls Hcls Hbad).
    split; [exact Hsome|]. split; [left; exact Hbad|reflexivity]. }
  destruct (Qlt_le_dec (learning_rate cfg) 0) as [Hbad|Hlr].
  { left. rewrite (train_bad_learning_rate cfg cls Hcls ltac:(lia) Hbad).
    split; [exact Hsome|]. split; [right; left; exact Hbad|reflexivity]. }
  assert (Hpos : 0 < batch_size cfg /\ (0 <= learning_rate cfg)%Q) by (split; [lia|exact Hlr]).
  destruct (Z_lt_le_dec (train_steps cfg) 0) as [Hneg|Hts].
  - (* train_steps < 0 *)
    rewrite train_eq. cbv zeta.
    change (model_type (lowered cfg)) with (Py.lower (model_type cfg)). rewrite Hcls.
    change (batch_size (lowered cfg)) with (batch_size cfg).
    destruct (Z.leb_spec (batch_size cfg) 0) as [Hc|_]; [lia|].
    change (learning_rate (lowered cfg)) with (learning_rate cfg).
    rewrite (proj2 (Qle_bool_iff 0 (learning_rate cfg)) Hlr). cbn [negb].
    change (train_steps (lowered cfg)) with (train_steps cfg).
    destruct (Z.ltb_spec (train_steps cfg + 1) 0) as [Hlt|Hge].
    { left. split; [exact Hsome|]. split; [right; right; lia|reflexivity]. }
    right. assert (Hm1 : train_steps cfg = -1) by lia.
    unfold initial_vars. change (train_steps (lowered cfg)) with (train_steps cfg).
    rewrite Hm1. cbn [Z.add Z.to_nat zeros replicate].
    change (batches_of (lowered cfg)) with (batches_of cfg).
    destruct (batches_of cfg) as [|b rest] eqn:Hb.
    + cbn [for_enumerate]. unfold ret, finish. cbn [the_train_acc last].
      change (experiment_flag (lowered cfg)) with (experiment_flag cfg).
      destruct (experiment_flag cfg) eqn:Hexp.
      * left. split; [exact Hsome|]. split; [exact Hpos|]. split; [reflexivity|].
        split; [tauto|reflexivity].
      * right. left. split; [exact Hsome|]. split; [exact Hpos|].
        repeat split; try reflexivity; assumption.
    + rewrite loop_empty_array by reflexivity.
      left. split; [exact Hsome|]. split; [exact Hpos|]. split; [reflexivity|].
      split; [left; discriminate|reflexivity].
  - (* train_steps >= 0 *)
    right. right. right.
    destruct (train_run cfg cls Hcls ltac:(lia) Hlr Hts) as (done & Hpre & _ & _ & Hend & Heq).
    cbv zeta in *. rewrite Heq.
    pose proof (train_run_drawn cfg done Hpre (fun Hlt => proj1 (Hend Hlt))) as Hdrawn.
    destruct (Z.eqb_spec (print_every cfg) 0) as [Hpe|Hpe];
      [destruct (Nat.ltb_spec 0 (length done)) as [Hk|Hk]|]; cbn [andb].
    + left. split; [exact Hsome|]. split; [exact Hpos|]. split; [exact Hts|].
      split; [exact Hpe|]. split; [apply Hdrawn; exact Hk|reflexivity].
    + right. split; [exact Hsome|]. split; [exact Hpos|]. split; [exact Hts|].
      split.
      { right. destruct (batches_of cfg) as [|b rest]; [reflexivity|].
        exfalso. assert (Hp : (0 < length done)%nat) by (apply Hdrawn; discriminate). lia. }
      unfold finish. change (experiment_flag (lowered cfg)) with (experiment_flag cfg).
      destruct (experiment_flag cfg).
      * destruct (last_with_zeros (accuracies cfg done)
                    (Z.to_nat (train_steps cfg + 1) - length done)) as [x ->].
        { rewrite length_accuracies. lia. }
        eexists. split; [reflexivity|]. split; [discriminate|reflexivity].
      * eexists. split; [reflexivity|]. split; [discriminate|congruence].
    + right. split; [exact Hsome|]. split; [exact Hpos|]. split; [exact Hts|].
      split; [left; exact Hpe|].
      unfold finish. change (experiment_flag (lowered cfg)) with (experiment_flag cfg).
      destruct (experiment_flag cfg).
      * destruct (last_with_zeros (accuracies cfg done)
                    (Z.to_nat (train_steps cfg + 1) - length done)) as [x ->].
        { rewrite length_accuracies. lia. }
        eexists. split; [reflexivity|]. split; [discriminate|reflexivity].
      * eexists. split; [reflexivity|]. split; [discriminate|congruence].
Qed.

(** X1. Which exception a training run ends with is decided by the
    configuration and by whether the loader yields a batch:
    AssertionError exactly for a model type outside 'rnn', 'lstm', 'rrn';
    otherwise ValueError exactly for a batch size that is not positive
    (raised by DataLoader), a negative learning rate (raised by RMSprop)
    or train_steps < -1 (raised by np.zeros); otherwise IndexError
    exactly for train_steps = -1 when a batch is drawn or statistics are
    asked for, and ZeroDivisionError exactly for train_steps >= 0 with
    print_every = 0 and a batch to process.  No other exception leaves
    [train]: the model is always bound where it is used.  A run that
    returns, returns statistics exactly in experiment mode.  The models,
    the dataset and the tensor operations are those of the interface
    [Torch], whose operations return. *)
Theorem train_outcome_by_configuration (cfg : Config) :
  let cls := class_of (Py.lower (model_type cfg)) in
  let bs := batch_size cfg in
  let lr := learning_rate cfg in
  let ts := train_steps cfg in
  let out := outcome_of (train cfg) in
  (out = Raise AssertionError <-> cls = None) /\
  (out = Raise ValueError <-> cls <> None /\ (bs <= 0 \/ (lr < 0)%Q \/ ts < -1)) /\
  (out = Raise IndexError <->
   cls <> None /\ (0 < bs /\ (0 <= lr)%Q) /\ ts = -1 /\
   (batches_of cfg <> [] \/ experiment_flag cfg = true)) /\
  (out = Raise ZeroDivisionError <->
   cls <> None /\ (0 < bs /\ (0 <= lr)%Q) /\ 0 <= ts /\ print_every cfg = 0 /\
   batches_of cfg <> []) /\
  out <> Raise TypeError /\
  out <> Raise UnboundLocalError /\
  (forall x, out = Return x -> (experiment_flag cfg = true <-> x <> None)).
Proof.
  cbv zeta.
  destruct (train_outcome_cases cfg)
    as [[Hc Ho]|[(Hc & Hbad & Ho)|[(Hc & Hok & Hts & Hb & Ho)|
        [(Hc & Hok & Hts & Hb & He & Ho)|
         [(Hc & Hok & Hts & Hpe & Hb & Ho)|(Hc & Hok & Hts & Hb & x & Ho & Hx)]]]]];
    cbv zeta in *; rewrite Ho; clear Ho.
  all: assert (Hq : forall q : Q, (q < 0)%Q -> (0 <= q)%Q -> False)
         by (intros q Hlt Hle; exact (Qlt_not_le _ _ Hlt Hle)).
  all: repeat match goal with
              | |- _ /\ _ => split
              | |- _ <-> _ => split
              | |- ~ _ => intro
              | |- _ -> _ => intro
              | |- forall _, _ => intro
              end.
  all: repeat match goal with
              | H : _ /\ _ |- _ => destruct H
              | H : _ <-> _ |- _ => destruct H
              | H : Return _ = Return _ |- _ => injection H as H; subst
              end.
  all: try discriminate; try congruence; try lia; try tauto.
  all: repeat match goal with H : _ \/ _ |- _ => destruct H end;
    try congruence; try lia; try tauto.
  all: exfalso; eapply Hq; eassumption.
Qed.

End Outcomes.

(* ================================================================== *)
(** * Side effects of a training run *)

Section SideEffects.

Context `{Torch}.

Lemma config_of_train cfg : config_of (train cfg) = lowered cfg.
Proof.
  rewrite train_eq. cbv zeta.
  destruct (class_of _) as [cls|]; [|reflexivity].
  destruct (_ <=? 0); [reflexivity|].
  destruct (Qle_bool _ _); cbn [negb]; [|reflexivity].
  destruct (_ <? 0); [reflexivity|].
  destruct (loop_any (lowered cfg) (batches_of (lowered cfg)) 0
              (initial_vars (lowered cfg) cls) (lowered cfg)) as (Hc & _).
  destruct (for_enumerate _ _ _ _ _) as [[[v|e] c2] l];
    cbn [config_of fst snd] in *.
  - rewrite config_of_finish. exact Hc.
  - exact Hc.
Qed.

(** X2. Whatever its outcome, [train] leaves the configuration it was
    given as it was, except for the model type, which it replaces by its
    lower-case form; a second run on the configuration it leaves
    behind changes nothing more. *)
Theorem train_only_lowercases_model_type (cfg : Config) :
  let cfg' := config_of (train cfg) in
  model_type cfg' = Py.lower (model_type cfg) /\
  input_length cfg' = input_length cfg /\
  input_dim cfg' = input_dim cfg /\
  num_classes cfg' = num_classes cfg /\
  num_hidden cfg' = num_hidden cfg /\
  batch_size cfg' = batch_size cfg /\
  learning_rate cfg' = learning_rate cfg /\
  train_steps cfg' = train_steps cfg /\
  max_norm cfg' = max_norm cfg /\
  device cfg' = device cfg /\
  experiment_flag cfg' = experiment_flag cfg /\
  print_every cfg' = print_every cfg /\
  config_of (train cfg') = cfg'.
Proof.
  cbv zeta. rewrite !config_of_train. repeat split.
  unfold lowered, set_model_type. cbn. rewrite lower_idem. reflexivity.
Qed.

(** X3. The model is built for cuda exactly when the device option,
    compared case-insensitively, is 'cuda' and CUDA is available; every
    other device string selects the cpu without a warning. *)
Theorem cuda_only_when_asked_and_available (cfg : Config) (cls : model_class)
    (args : ctor_args) :
  In (Construct cls args) (log_of (train cfg)) ->
  (arg_device args = cuda <->
   Py.lower (device cfg) = "cuda" /\ cuda_is_available = true) /\
  (arg_device args = cpu <->
   Py.lower (device cfg) <> "cuda" \/ cuda_is_available = false).
Proof.
  destruct (train_log cfg) as (rest & -> & Hrest). rewrite in_app_iff.
  intros [Hin|Hin]; [exfalso; revert Hin; apply not_in_config_lines; reflexivity|].
  destruct (class_of _) as [cls'|]; [|destruct Hrest as [-> _]; destruct Hin].
  destruct Hrest as (pre & l & post & k & -> & Hpre & Hl & _ & Hpost & _).
  rewrite !in_app_iff in Hin.
  assert (Hargs : args = model_args cfg).
  { destruct Hin as [Hin|[Hin|Hin]].
    - destruct Hpre as [->| ->]; cbn in Hin;
        (destruct Hin as [Hin|Hin]; [congruence|intuition discriminate]).
    - exfalso. revert Hin. apply not_in_loop_events; [exact Hl|reflexivity].
    - destruct Hpost as [->|[ta ->]]; cbn in Hin; intuition discriminate. }
  subst args. unfold model_args, selected_device. cbn [arg_device].
  destruct (String.eqb_spec (Py.lower (device cfg)) "cuda") as [Heq|Hne];
    destruct cuda_is_available; split; split; intros; try discriminate;
    try tauto; try (split; congruence);
    repeat match goal with
           | H : _ /\ _ |- _ => destruct H
           | H : _ \/ _ |- _ => destruct H
           end; congruence.
Qed.

(** X4. The exceptions raised past the assertion leave their work
    behind.  With a batch size that is not positive the model and the
    dataset are built and the call of DataLoader raises ValueError:
    neither the criterion nor the optimizer is asked for.  With a
    positive batch size and a negative learning rate the model, the
    dataset, the loader and the criterion are built and the call of
    RMSprop raises ValueError.  With a positive batch size, a learning
    rate that is not negative and train_steps < -1 the optimizer is
    built as well before np.zeros raises ValueError, and no batch is
    drawn.  With train_steps >= 0 and print_every = 0 instead the first
    batch goes through every operation, its accuracy included, before
    the divisibility test raises ZeroDivisionError.  In all four cases
    nothing is saved. *)
Theorem train_fails_after_setup (cfg : Config) (cls : model_class) :
  class_of (Py.lower (model_type cfg)) = Some cls ->
  (batch_size cfg <= 0 ->
   train cfg =
     (Raise ValueError, lowered cfg,
      config_lines cfg
        ++ [ Construct cls (model_args cfg);
             Dataset (input_length cfg + 1);
             Loader (batch_size cfg) 0 ])) /\
  (0 < batch_size cfg -> (learning_rate cfg < 0)%Q ->
   train cfg =
     (Raise ValueError, lowered cfg,
      config_lines cfg
        ++ [ Construct cls (model_args cfg);
             Dataset (input_length cfg + 1);
             Loader (batch_size cfg) 0;
             Criterion;
             Optimizer (learning_rate cfg) ])) /\
  (0 < batch_size cfg -> (0 <= learning_rate cfg)%Q -> train_steps cfg < -1 ->
   train cfg = (Raise ValueError, lowered cfg, config_lines cfg ++ setup_log cfg cls)) /\
  (forall b rest,
     0 < batch_size cfg -> (0 <= learning_rate cfg)%Q ->
     0 <= train_steps cfg -> print_every cfg = 0 -> batches_of cfg = b :: rest ->
     train cfg =
       (Raise ZeroDivisionError, lowered cfg,
        config_lines cfg ++ setup_log cfg cls
          ++ batch_ops cfg 0 b (forward (construct cls (model_args cfg)) b.1))).
Proof.
  intros Hcls. split; [|split; [|split]].
  - intros Hbs. apply (train_bad_batch_size cfg cls Hcls Hbs).
  - intros Hbs Hlr. apply (train_bad_learning_rate cfg cls Hcls Hbs Hlr).
  - intros Hbs Hlr Hts. rewrite train_eq. cbv zeta.
    change (model_type (lowered cfg)) with (Py.lower (model_type cfg)). rewrite Hcls.
    change (batch_size (lowered cfg)) with (batch_size cfg).
    destruct (Z.leb_spec (batch_size cfg) 0) as [Hc|_]; [lia|].
    change (learning_rate (lowered cfg)) with (learning_rate cfg).
    rewrite (proj2 (Qle_bool_iff 0 (learning_rate cfg)) Hlr). cbn [negb].
    change (train_steps (lowered cfg)) with (train_steps cfg).
    destruct (Z.ltb_spec (train_steps cfg + 1) 0) as [_|Hge]; [reflexivity|lia].
  - intros b rest Hbs Hlr Hts Hpe Hb. rewrite train_eq. cbv zeta.
    change (model_type (lowered cfg)) with (Py.lower (model_type cfg)). rewrite Hcls.
    change (batch_size (lowered cfg)) with (batch_size cfg).
    destruct (Z.leb_spec (batch_size cfg) 0) as [Hc|_]; [lia|].
    change (learning_rate (lowered cfg)) with (learning_rate cfg).
    rewrite (proj2 (Qle_bool_iff 0 (learning_rate cfg)) Hlr). cbn [negb].
    change (train_steps (lowered cfg)) with (train_steps cfg).
    destruct (Z.ltb_spec (train_steps cfg + 1) 0) as [Hlt|_]; [lia|].
    change (batches_of (lowered cfg)) with (batches_of cfg). rewrite Hb.
    rewrite for_enumerate_cons, train_step_eq. cbv zeta.
    unfold initial_vars. cbn [the_train_acc the_model].
    change (train_steps (lowered cfg)) with (train_steps cfg).
    change (print_every (lowered cfg)) with (print_every cfg).
    assert (Hin : (0 <? length (zeros (Z.to_nat (train_steps cfg + 1))))%nat = true).
    { apply Nat.ltb_lt. unfold zeros. rewrite length_replicate. lia. }
    rewrite Hin, Hpe. reflexivity.
Qed.

(** X5. Every run, failing or not, starts by printing the twelve entries
    of the configuration in the order they are declared, the model type
    as it was given; no configuration entry is printed after that. *)
Theorem train_prints_configuration_first (cfg : Config) :
  exists rest,
    log_of (train cfg) =
      map (fun kv => Print (Config_entry kv.1 kv.2)) (vars cfg) ++ rest /\
    length (vars cfg) = 12%nat /\
    In ("model_type", VStr (model_type cfg)) (vars cfg) /\
    forall k v, ~ In (Print (Config_entry k v)) rest.
Proof.
  destruct (train_log cfg) as (rest & Hlog & Hrest). exists rest.
  split; [exact Hlog|]. split; [reflexivity|]. split; [left; reflexivity|].
  intros k v Hin.
  destruct (class_of _) as [cls|]; [|destruct Hrest as [-> _]; destruct Hin].
  destruct Hrest as (pre & l & post & n & -> & Hpre & Hl & _ & Hpost & _).
  rewrite !in_app_iff in Hin. destruct Hin as [Hin|[Hin|Hin]].
  - destruct Hpre as [->| ->]; cbn in Hin; intuition discriminate.
  - revert Hin. apply not_in_loop_events; [exact Hl|reflexivity].
  - destruct Hpost as [->|[ta ->]]; cbn in Hin; intuition discriminate.
Qed.

End SideEffects.

Lemma cuda_only_when_asked_and_available_witness :
  let T := toy (replicate 8 two_examples) always_right true in
  let cfg := mkConfig "rnn" 10 1 3 4 2 (1 # 1000) 3 10 "CUDA" true 100 in
  In (Construct VanillaRNN (mkArgs 10 1 4 3 2 cuda)) (log_of (@train T cfg)) /\
  Py.lower (device cfg) = "cuda".
Proof.
  cbv zeta.
  assert (Hin : In (Construct VanillaRNN (mkArgs 10 1 4 3 2 cuda))
                  (log_of (@train (toy (replicate 8 two_examples) always_right true)
                             (mkConfig "rnn" 10 1 3 4 2 (1 # 1000) 3 10 "CUDA" true 100)))).
  { vm_compute. repeat ((left; reflexivity) || right). }
  split; [exact Hin|].
  apply (proj1 (proj1 (@cuda_only_when_asked_and_available
                         (toy (replicate 8 two_examples) always_right true)
                         (mkConfig "rnn" 10 1 3 4 2 (1 # 1000) 3 10 "CUDA" true 100)
                         VanillaRNN (mkArgs 10 1 4 3 2 cuda) Hin))).
  reflexivity.
Defined.

Lemma train_fails_after_setup_witness :
  let T := toy (replicate 8 two_examples) always_right false in
  let no_report := mkConfig "rnn" 10 1 3 4 2 (1 # 1000) 3 10 "cpu" true 0 in
  let no_batch := mkConfig "rnn" 10 1 3 4 0 (1 # 1000) 3 10 "cpu" true 100 in
  let no_rate := mkConfig "rnn" 10 1 3 4 2 (-1 # 1000) 3 10 "cpu" true 100 in
  outcome_of (@train T no_report) = Raise ZeroDivisionError /\
  recorded_accs (log_of (@train T no_report)) = [2 # 2]%Q /\
  outcome_of (@train T (small_config "rnn" (-5))) = Raise ValueError /\
  @train T no_batch
  = (Raise ValueError, lowered no_batch,
     config_lines no_batch
       ++ [Construct VanillaRNN (mkArgs 10 1 4 3 0 cpu); Dataset 11; Loader 0 0]) /\
  @train T no_rate
  = (Raise ValueError, lowered no_rate,
     config_lines no_rate
       ++ [Construct VanillaRNN (mkArgs 10 1 4 3 2 cpu); Dataset 11; Loader 2 0;
           Criterion; Optimizer (-1 # 1000)]).
Proof.
  cbv zeta.
  pose proof (@train_fails_after_setup
                (toy (replicate 8 two_examples) always_right false)
                (mkConfig "rnn" 10 1 3 4 2 (1 # 1000) 3 10 "cpu" true 0)
                VanillaRNN eq_refl) as (_ & _ & _ & Hzero).
  pose proof (@train_fails_after_setup
                (toy (replicate 8 two_examples) always_right false)
                (small_config "rnn" (-5)) VanillaRNN eq_refl) as (_ & _ & Hvalue & _).
  pose proof (@train_fails_after_setup
                (toy (replicate 8 two_examples) always_right false)
                (mkConfig "rnn" 10 1 3 4 0 (1 # 1000) 3 10 "cpu" true 100)
                VanillaRNN eq_refl) as (Hloader & _ & _ & _).
  pose proof (@train_fails_after_setup
                (toy (replicate 8 two_examples) always_right false)
                (mkConfig "rnn" 10 1 3 4 2 (-1 # 1000) 3 10 "cpu" true 100)
                VanillaRNN eq_refl) as (_ & Hrate & _ & _).
  rewrite (Hzero two_examples (replicate 7 two_examples));
    [|cbn; lia|unfold Qle; cbn; lia|cbn; lia|reflexivity|reflexivity].
  rewrite Hvalue; [|cbn; lia|unfold Qle; cbn; lia|cbn; lia].
  split; [reflexivity|]. split; [reflexivity|]. split; [reflexivity|]. split.
  - apply Hloader. cbn. lia.
  - apply Hrate; [cbn; lia|reflexivity].
Defined.

(* ================================================================== *)
(** * The early stop *)

Section EarlyStop.

Context `{Torch}.

(** From step 4 on, the slice is the window of the last five entries. *)
Lemma slice_window (a : list Q) (step : nat) :
  (4 <= step)%nat -> (step < length a)%nat ->
  Py.slice a (Z.of_nat step - 4) (Z.of_nat step + 1) = take 5 (drop (step - 4) a).
Proof.
  intros H4 Hlen. unfold Py.slice, Py.clip_index.
  destruct (Z.ltb_spec (Z.of_nat step - 4) 0) as [Hc|_]; [lia|].
  destruct (Z.ltb_spec (Z.of_nat step + 1) 0) as [Hc|_]; [lia|].
  replace (Z.to_nat (Z.min (Z.of_nat step - 4) (Z.of_nat (length a)))) with (step - 4)%nat
    by lia.
  replace (Z.to_nat _) with 5%nat by lia. reflexivity.
Qed.

Lemma sum_full_iff (a : list Q) :
  Forall unit_range a ->
  (Py.sum a == inject_Z (Z.of_nat (length a)))%Q <-> Forall (fun x => (x == 1)%Q) a.
Proof.
  induction 1 as [|x a [Hx0 Hx1] Ha IH]; cbn [Py.sum fold_right length].
  - split; [constructor|]. intros _. reflexivity.
  - fold (Py.sum a). rewrite Nat2Z.inj_succ. unfold Z.succ. rewrite inject_Z_plus.
    change (inject_Z 1) with 1%Q.
    destruct (sum_unit_range a Ha) as [_ Hs].
    split.
    + intros Heq.
      assert (Hx : (x == 1)%Q) by lra.
      constructor; [exact Hx|]. apply IH. lra.
    + intros Hall. inversion Hall as [|? ? Hx Hrest]; subst.
      apply IH in Hrest. lra.
Qed.

(** With accuracies between 0 and 1, the moving average at a step from
    4 on is 1.0 exactly when the five accuracies up to that step are
    all 1. *)
Lemma moving_average_one_iff (a : list Q) (step : nat) :
  Forall unit_range a -> (4 <= step)%nat -> (step < length a)%nat ->
  Qeq_bool (moving_average a step) 1 = true <->
  forall j x, (step - 4 <= j)%nat -> (j <= step)%nat -> a !! j = Some x -> (x == 1)%Q.
Proof.
  intros Ha H4 Hlen. rewrite Qeq_bool_iff. unfold moving_average.
  rewrite slice_window by assumption.
  set (w := take 5 (drop (step - 4) a)).
  assert (Hw : Forall unit_range w) by (apply Forall_take, Forall_drop, Ha).
  assert (Hl : length w = 5%nat).
  { subst w. rewrite length_take, length_drop. lia. }
  assert (Hsum : (Py.sum w / 5 == 1)%Q <-> (Py.sum w == inject_Z (Z.of_nat (length w)))%Q).
  { rewrite Hl. change (inject_Z (Z.of_nat 5)) with 5%Q. split; intros Hs.
    - rewrite <- (Qmult_div_r (Py.sum w) 5) by discriminate.
      unfold Qdiv in *. rewrite Hs. reflexivity.
    - rewrite Hs. reflexivity. }
  rewrite Hsum, (sum_full_iff w Hw). subst w. rewrite Forall_lookup. split.
  - intros Hall j x Hj1 Hj2 Hx. apply (Hall (j - (step - 4))%nat x).
    rewrite lookup_take_lt by lia. rewrite lookup_drop.
    replace (step - 4 + (j - (step - 4)))%nat with j by lia. exact Hx.
  - intros Hall i x Hx.
    assert (Hi : (i < 5)%nat).
    { apply lookup_lt_Some in Hx. rewrite length_take in Hx. lia. }
    rewrite lookup_take_lt in Hx by exact Hi. rewrite lookup_drop in Hx.
    apply (Hall (step - 4 + i)%nat x); [lia|lia|exact Hx].
Qed.

Lemma window_search (a : list Q) lo d :
  (forall j x, (lo <= j)%nat -> (j < lo + d)%nat -> a !! j = Some x -> (x == 1)%Q) \/
  (exists j x, (lo <= j)%nat /\ (j < lo + d)%nat /\ a !! j = Some x /\ ~ (x == 1)%Q).
Proof.
  induction d as [|d [IH|(j & x & Hj1 & Hj2 & Hx & Hne)]].
  - left. intros; lia.
  - destruct (a !! (lo + d)%nat) as [y|] eqn:Hy.
    + destruct (Qeq_dec y 1) as [Hq|Hq].
      * left. intros j x Hj1 Hj2 Hx.
        destruct (decide (j = (lo + d)%nat)) as [->|Hne]; [congruence|].
        apply (IH j x); [lia|lia|exact Hx].
      * right. exists (lo + d)%nat, y. repeat split; [lia|lia|exact Hy|exact Hq].
    + left. intros j x Hj1 Hj2 Hx.
      destruct (decide (j = (lo + d)%nat)) as [->|Hne]; [congruence|].
      apply (IH j x); [lia|lia|exact Hx].
  - right. exists j, x. repeat split; [lia|lia|exact Hx|exact Hne].
Qed.

Lemma lookup_array_at n (accs : list Q) i j :
  (j <= i)%nat -> (i < length accs)%nat -> array_at n accs i !! j = accs !! j.
Proof.
  intros Hj Hi. unfold array_at.
  rewrite lookup_app_l by (rewrite length_take; lia).
  apply lookup_take_lt. lia.
Qed.

(** X6. Training stops early exactly on five perfect batches in a row.
    With train_steps >= 0, enough batches and no batch larger than
    batch_size: a run that returns having processed fewer than
    train_steps + 1 batches processed five at least, and the last five
    all had accuracy 1; and at no earlier step were the five accuracies
    up to it all 1. *)
Theorem early_stop_on_five_perfect_batches (cfg : Config) :
  0 <= train_steps cfg ->
  train_steps cfg + 1 <= Z.of_nat (length (batches_of cfg)) ->
  0 < batch_size cfg ->
  Forall (fun b : batch => Z.of_nat (length b.2) <= batch_size cfg) (batches_of cfg) ->
  exists done : list (batch * tensor2),
    let k := length done in
    let accs := accuracies cfg done in
    List.filter is_batch_event (log_of (train cfg)) = batch_blocks cfg 0 done /\
    (forall x, outcome_of (train cfg) = Return x -> Z.of_nat k < train_steps cfg + 1 ->
       (5 <= k)%nat /\
       forall j a, (k - 5 <= j)%nat -> accs !! j = Some a -> (a == 1)%Q) /\
    (forall i, (4 <= i)%nat -> (S i < k)%nat ->
       exists j a, (i - 4 <= j)%nat /\ (j <= i)%nat /\ accs !! j = Some a /\ ~ (a == 1)%Q).
Proof.
  intros Hts Henough Hbs Hall.
  destruct (class_of (Py.lower (model_type cfg))) as [cls|] eqn:Hcls.
  2:{ exists []. cbv zeta. cbn [length].
      assert (Heq : train cfg = (Raise AssertionError, lowered cfg, config_lines cfg)).
      { rewrite train_eq. cbv zeta.
        change (model_type (lowered cfg)) with (Py.lower (model_type cfg)).
        rewrite Hcls. reflexivity. }
      rewrite Heq. cbn [outcome_of log_of fst snd].
      split; [apply config_lines_no_batch_event|]. split; [discriminate|intros; lia]. }
  destruct (Qlt_le_dec (learning_rate cfg) 0) as [Hneg|Hlr].
  { (* the optimizer is refused: no batch is drawn *)
    exists []. cbv zeta. cbn [length].
    rewrite (train_bad_learning_rate cfg cls Hcls Hbs Hneg).
    cbn [outcome_of log_of fst snd].
    split; [rewrite List.filter_app, config_lines_no_batch_event; reflexivity|].
    split; [discriminate|intros; lia]. }
  destruct (train_run cfg cls Hcls Hbs Hlr Hts) as (done & Hpre & Hk & Hgo & Hend & Heq).
  cbv zeta in *. exists done.
  set (n := Z.to_nat (train_steps cfg + 1)) in *.
  set (accs := accuracies cfg done) in *.
  assert (Hrange : Forall unit_range accs).
  { apply accuracies_unit_range; [exact Hbs|]. rewrite Hpre. apply Forall_take, Hall. }
  assert (Hlen : length accs = length done) by apply length_accuracies.
  assert (Hone : forall i, (4 <= i)%nat -> (i < length done)%nat ->
            Qeq_bool (moving_average (array_at n accs i) i) 1 = true <->
            forall j x, (i - 4 <= j)%nat -> (j <= i)%nat -> accs !! j = Some x -> (x == 1)%Q).
  { intros i Hi4 Hik.
    rewrite moving_average_one_iff;
      [|apply array_at_unit_range, Hrange|exact Hi4|rewrite length_array_at; lia].
    split; intros Hw j x Hj1 Hj2 Hx.
    - apply (Hw j x Hj1 Hj2). rewrite lookup_array_at by lia. exact Hx.
    - apply (Hw j x Hj1 Hj2). rewrite lookup_array_at in Hx by lia. exact Hx. }
  split.
  { assert (Hlog : exists post,
               log_of (train cfg)
               = (config_lines cfg ++ setup_log cfg cls ++ loop_log cfg 0 done) ++ post
               /\ List.filter is_batch_event post = []).
    { rewrite Heq. destruct (_ && _).
      - exists []. rewrite app_nil_r. split; reflexivity.
      - rewrite log_of_finish. eexists. split; reflexivity. }
    destruct Hlog as (post & -> & Hpost).
    rewrite !List.filter_app, Hpost, config_lines_no_batch_event,
      loop_log_batch_events, app_nil_r.
    reflexivity. }
  split.
  - intros x Hx Hearly.
    assert (Hless : (length done < length (batches_of cfg))%nat) by lia.
    destruct (Hend Hless) as [Hpos Hstop].
    assert (Hpe : print_every cfg <> 0).
    { intros Hpe. rewrite Heq, Hpe in Hx.
      destruct (Nat.ltb_spec 0 (length done)) as [_|Hz]; [discriminate|lia]. }
    specialize (Hstop Hpe). unfold stops in Hstop.
    destruct (Z.eqb_spec (Z.of_nat (length done - 1)) (train_steps cfg)) as [Hc|_]; [lia|].
    cbn [orb] in Hstop.
    assert (H5 : (5 <= length done)%nat).
    { destruct (le_lt_dec 5 (length done)) as [Hge|Hlt]; [exact Hge|]. exfalso.
      rewrite moving_average_first_steps in Hstop; [discriminate| |lia].
      apply array_at_unit_range, Hrange. }
    split; [exact H5|]. intros j a Hj Ha.
    apply (proj1 (Hone (length done - 1)%nat ltac:(lia) ltac:(lia)) Hstop j a);
      [lia| |exact Ha].
    apply lookup_lt_Some in Ha. lia.
  - intros i Hi4 Hik. specialize (Hgo i Hik). unfold stops in Hgo.
    apply orb_false_elim in Hgo. destruct Hgo as [_ Hma].
    destruct (window_search accs (i - 4) 5) as [Hones|(j & a & Hj1 & Hj2 & Ha & Hne)].
    + exfalso. assert (Htrue : Qeq_bool (moving_average (array_at n accs i) i) 1 = true).
      { apply Hone; [exact Hi4|lia|]. intros j x Hj1 Hj2 Hx.
        apply (Hones j x); [lia|lia|exact Hx]. }
      congruence.
    + exists j, a. repeat split; [lia|lia|exact Ha|exact Hne].
Qed.

End EarlyStop.

(* ================================================================== *)
(** * Progress reports *)

Section Reports.

Context `{Torch}.

(** The log of a run is the configuration lines, the setup if the
    assertion passes (cut short after the loader for a batch size that
    is not positive), the events of the loop and the end of [train] if
    it is reached; the loop processes batches in full, except that with
    an empty accuracy array it stops in its first pass. *)
Lemma train_log_shape cfg :
  exists pre body post,
    log_of (train cfg) = config_lines cfg ++ pre ++ body ++ post /\
    (pre = [] \/ exists cls, pre = loader_log cfg cls \/ pre = setup_log cfg cls) /\
    (post = [] \/ exists train_acc, post = finish_log (lowered cfg) train_acc) /\
    ((exists done, body = loop_log cfg 0 done) \/
     (exists b y, body = removelast (batch_ops cfg 0 b y))).
Proof.
  destruct (class_of (Py.lower (model_type cfg))) as [cls|] eqn:Hcls.
  2:{ exists [], [], []. rewrite !app_nil_r.
      split; [|split; [tauto|split; [tauto|left; exists []; reflexivity]]].
      rewrite train_eq. cbv zeta.
      change (model_type (lowered cfg)) with (Py.lower (model_type cfg)).
      rewrite Hcls. reflexivity. }
  destruct (Z_le_gt_dec (batch_size cfg) 0) as [Hbad|Hbs].
  { rewrite (train_bad_batch_size cfg cls Hcls Hbad). cbn [log_of snd].
    exists (loader_log cfg cls), [], []. rewrite !app_nil_r.
    split; [reflexivity|]. split; [right; eauto|]. split; [tauto|].
    left. exists []. reflexivity. }
  apply Z.gt_lt in Hbs.
  destruct (Qlt_le_dec (learning_rate cfg) 0) as [Hbad|Hlr].
  { rewrite (train_bad_learning_rate cfg cls Hcls Hbs Hbad). cbn [log_of snd].
    exists (setup_log cfg cls), [], []. rewrite !app_nil_r.
    split; [reflexivity|]. split; [right; eauto|]. split; [tauto|].
    left. exists []. reflexivity. }
  destruct (Z_lt_le_dec (train_steps cfg) 0) as [Hneg|Hts].
  - rewrite train_eq. cbv zeta.
    change (model_type (lowered cfg)) with (Py.lower (model_type cfg)). rewrite Hcls.
    change (batch_size (lowered cfg)) with (batch_size cfg).
    destruct (Z.leb_spec (batch_size cfg) 0) as [Hc|_]; [lia|].
    change (learning_rate (lowered cfg)) with (learning_rate cfg).
    rewrite (proj2 (Qle_bool_iff 0 (learning_rate cfg)) Hlr). cbn [negb].
    change (train_steps (lowered cfg)) with (train_steps cfg).
    destruct (Z.ltb_spec (train_steps cfg + 1) 0) as [Hlt|Hge].
    { exists (setup_log cfg cls), [], []. rewrite !app_nil_r.
      split; [reflexivity|]. split; [right; eauto|]. split; [tauto|].
      left. exists []. reflexivity. }
    assert (Hm1 : train_steps cfg = -1) by lia.
    unfold initial_vars. change (train_steps (lowered cfg)) with (train_steps cfg).
    rewrite Hm1. cbn [Z.add Z.to_nat zeros replicate].
    change (batches_of (lowered cfg)) with (batches_of cfg).
    destruct (batches_of cfg) as [|b rest].
    + cbn [for_enumerate]. unfold ret. rewrite log_of_finish.
      exists (setup_log cfg cls), [], (finish_log (lowered cfg) []).
      cbn [the_train_acc]. rewrite !app_nil_r, <- !app_assoc.
      split; [reflexivity|]. split; [right; eauto|]. split; [right; eauto|].
      left. exists []. reflexivity.
    + rewrite loop_empty_array by reflexivity.
      exists (setup_log cfg cls),
        (removelast (batch_ops cfg 0 b (forward (construct cls (model_args cfg)) b.1))), [].
      rewrite !app_nil_r.
      split; [reflexivity|]. split; [right; eauto|]. split; [tauto|].
      right. eexists _, _. reflexivity.
  - destruct (train_run cfg cls Hcls Hbs Hlr Hts) as (done & _ & _ & _ & _ & Heq).
    cbv zeta in Heq. rewrite Heq.
    destruct (_ && _).
    + exists (setup_log cfg cls), (loop_log cfg 0 done), []. rewrite !app_nil_r.
      split; [reflexivity|]. split; [right; eauto|]. split; [tauto|]. left. eauto.
    + rewrite log_of_finish.
      eexists (setup_log cfg cls), (loop_log cfg 0 done), _. rewrite <- !app_assoc.
      split; [reflexivity|]. split; [right; eauto|]. split; [right; eauto|]. left. eauto.
Qed.

Lemma report_lines_in cfg step acc e :
  print_every cfg <> 0 ->
  In e (report_lines cfg step acc) <->
  Z.of_nat step mod print_every cfg = 0 /\
  (e = Print (Step_report step acc) \/ e = Print (Sample step)).
Proof.
  intros Hpe. unfold report_lines.
  destruct (Z.eqb_spec (print_every cfg) 0) as [|_]; [contradiction|].
  destruct (Z.eqb_spec (Z.of_nat step mod print_every cfg) 0) as [Hz|Hnz]; cbn.
  - intuition congruence.
  - intuition congruence.
Qed.

Lemma loop_log_reports cfg done : forall step i a,
  print_every cfg <> 0 ->
  In (Print (Step_report i a)) (loop_log cfg step done) <->
  Z.of_nat i mod print_every cfg = 0 /\ In (Set_acc i a) (loop_log cfg step done).
Proof.
  induction done as [|[b y] rest IH]; intros step i a Hpe.
  - cbn. tauto.
  - cbn [loop_log]. rewrite !in_app_iff, (IH (S step) i a Hpe), !report_lines_in by exact Hpe.
    cbn [batch_ops In fst snd]. split.
    + intros [Hin|[[Hz [He|He]]|[Hz Hin]]].
      * repeat (destruct Hin as [Hin|Hin]; try discriminate). destruct Hin.
      * injection He as <- <-. split; [exact Hz|]. left. do 7 right. left. reflexivity.
      * discriminate.
      * split; [exact Hz|]. right. right. exact Hin.
    + intros [Hz [Hin|[[_ [He|He]]|Hin]]]; try discriminate.
      * repeat (destruct Hin as [Hin|Hin]; try discriminate); [|destruct Hin].
        injection Hin as <- <-. right. left. split; [exact Hz|]. left. reflexivity.
      * right. right. tauto.
Qed.

Lemma loop_log_samples cfg done : forall step i,
  print_every cfg <> 0 ->
  In (Print (Sample i)) (loop_log cfg step done) <->
  Z.of_nat i mod print_every cfg = 0 /\ exists a, In (Set_acc i a) (loop_log cfg step done).
Proof.
  induction done as [|[b y] rest IH]; intros step i Hpe.
  - cbn. split; [tauto|]. intros [_ [a []]].
  - cbn [loop_log]. rewrite !in_app_iff, (IH (S step) i Hpe), !report_lines_in by exact Hpe.
    cbn [batch_ops In fst snd]. split.
    + intros [Hin|[[Hz [He|He]]|[Hz [a Hin]]]].
      * repeat (destruct Hin as [Hin|Hin]; try discriminate). destruct Hin.
      * discriminate.
      * injection He as <-. split; [exact Hz|]. eexists.
        rewrite !in_app_iff. left. do 7 right. left. reflexivity.
      * split; [exact Hz|]. exists a. rewrite !in_app_iff. right. right. exact Hin.
    + intros [Hz [a Hin]]. rewrite !in_app_iff, report_lines_in in Hin by exact Hpe.
      cbn [batch_ops In fst snd] in Hin.
      destruct Hin as [Hin|[[_ [He|He]]|Hin]]; try discriminate.
      * repeat (destruct Hin as [Hin|Hin]; try discriminate); [|destruct Hin].
        injection Hin as <- _. right. left. split; [exact Hz|]. right. reflexivity.
      * right. right. split; [exact Hz|]. eauto.
Qed.

(** X7. With print_every other than 0, the progress report and the
    sample line are printed for exactly the steps that recorded an
    accuracy and whose index is a multiple of print_every, step 0
    included; the report carries the accuracy recorded at its step. *)
Theorem reports_every_print_every_steps (cfg : Config) (i : nat) (a : Q) :
  print_every cfg <> 0 ->
  (In (Print (Step_report i a)) (log_of (train cfg)) <->
   Z.of_nat i mod print_every cfg = 0 /\ In (Set_acc i a) (log_of (train cfg))) /\
  (In (Print (Sample i)) (log_of (train cfg)) <->
   Z.of_nat i mod print_every cfg = 0 /\ exists a', In (Set_acc i a') (log_of (train cfg))).
Proof.
  intros Hpe.
  destruct (train_log_shape cfg) as (pre & body & post & -> & Hpre & Hpost & Hbody).
  assert (Hout : forall e, is_loop_event e = true ->
            In e (config_lines cfg ++ pre ++ body ++ post) <-> In e body).
  { intros e He. rewrite !in_app_iff. split; [|tauto].
    intros [Hin|[Hin|[Hin|Hin]]]; [| |exact Hin|]; exfalso.
    - cbn in Hin. repeat (destruct Hin as [<-|Hin]; [discriminate|]). destruct Hin.
    - destruct Hpre as [->|[cls [->| ->]]]; [destruct Hin| |].
      + cbn in Hin. destruct Hin as [<-|[<-|[<-|[]]]]; discriminate.
      + cbn in Hin. destruct Hin as [<-|[<-|[<-|[<-|[<-|[]]]]]]; discriminate.
    - destruct Hpost as [->|[ta ->]]; [destruct Hin|].
      cbn in Hin. destruct Hin as [<-|[<-|[<-|[]]]]; discriminate. }
  rewrite !Hout by reflexivity.
  assert (Hset : (exists a', In (Set_acc i a') (config_lines cfg ++ pre ++ body ++ post))
                 <-> exists a', In (Set_acc i a') body).
  { split; intros [a' Ha']; exists a'; [apply Hout in Ha'|apply Hout];
      solve [reflexivity | exact Ha']. }
  rewrite Hset.
  destruct Hbody as [[done ->]|(b & y & ->)].
  - split; [apply loop_log_reports|apply loop_log_samples]; exact Hpe.
  - cbn. split; split; try (intros [_ [a' Hin]]); intuition discriminate.
Qed.

End Reports.

Lemma reports_every_print_every_steps_witness :
  let T := toy (replicate 8 two_examples) half_right false in
  let cfg := mkConfig "rnn" 10 1 3 4 2 (1 # 1000) 7 10 "cpu" true (-3) in
  print_every cfg <> 0 /\
  In (Print (Step_report 6 (1 # 2))) (log_of (@train T cfg)).
Proof.
  cbv zeta.
  assert (Hpe : print_every (mkConfig "rnn" 10 1 3 4 2 (1 # 1000) 7 10 "cpu" true (-3)) <> 0)
    by discriminate.
  split; [exact Hpe|].
  apply (proj1 (@reports_every_print_every_steps
                  (toy (replicate 8 two_examples) half_right false)
                  (mkConfig "rnn" 10 1 3 4 2 (1 # 1000) 7 10 "cpu" true (-3))
                  6%nat (1 # 2)%Q Hpe)).
  split; [reflexivity|]. vm_compute. repeat ((left; reflexivity) || right).
Defined.

(* ================================================================== *)
(** * Accuracy of partial and perfect batches *)

Section AccuracyValues.

Lemma ratio_one_iff (a b : Z) :
  0 < b -> (inject_Z a / inject_Z b == 1)%Q <-> a = b.
Proof.
  intros Hb.
  assert (Hq : ~ (inject_Z b == 0)%Q).
  { intros Hc. unfold Qeq in Hc. cbn in Hc. lia. }
  split.
  - intros Heq. apply inject_Z_injective.
    rewrite <- (Qmult_div_r (inject_Z a) (inject_Z b)) by exact Hq.
    rewrite Heq. ring.
  - intros ->. unfold Qdiv. apply Qmult_inv_r. exact Hq.
Qed.

Lemma ratio_zero_iff (a b : Z) :
  0 < b -> (inject_Z a / inject_Z b == 0)%Q <-> a = 0.
Proof.
  intros Hb.
  assert (Hq : ~ (inject_Z b == 0)%Q).
  { intros Hc. unfold Qeq in Hc. cbn in Hc. lia. }
  split.
  - intros Heq. apply inject_Z_injective.
    rewrite <- (Qmult_div_r (inject_Z a) (inject_Z b)) by exact Hq.
    rewrite Heq. cbn. ring.
  - intros ->. unfold Qdiv. cbn. ring.
Qed.

(** X8. For predictions with one row per label and batch_size > 0, the
    accuracy of a batch is 1 exactly when batch_size of its predictions
    are right and 0 exactly when none is.  As the count is divided by
    config.batch_size and not by the size of the batch, a batch with
    fewer than batch_size examples has an accuracy below 1 even when
    every prediction is right. *)
Theorem accuracy_of_perfect_and_partial_batches (predictions : tensor2)
    (label : list Z) (cfg : Config) :
  length label = length predictions ->
  0 < batch_size cfg ->
  ((accuracy predictions label cfg == 1)%Q <->
   Z.of_nat (correct_predictions predictions label) = batch_size cfg) /\
  ((accuracy predictions label cfg == 0)%Q <->
   correct_predictions predictions label = 0%nat) /\
  (Z.of_nat (length predictions) < batch_size cfg ->
   (accuracy predictions label cfg < 1)%Q).
Proof.
  intros Hrows Hpos. unfold accuracy. rewrite count_correct_eq.
  split; [apply ratio_one_iff; exact Hpos|].
  split.
  - rewrite ratio_zero_iff by exact Hpos. lia.
  - intros Hshort.
    destruct (correct_predictions_le predictions label) as [H1 H2].
    apply Qlt_shift_div_r.
    + change 0%Q with (inject_Z 0). rewrite <- Zlt_Qlt. exact Hpos.
    + rewrite Qmult_1_l, <- Zlt_Qlt. lia.
Qed.

End AccuracyValues.

Lemma accuracy_of_perfect_and_partial_batches_witness :
  length two_examples.2 = length (always_right 0 two_examples.1) /\
  0 < batch_size default_config /\
  Z.of_nat (length (always_right 0 two_examples.1)) < batch_size default_config /\
  (accuracy (always_right 0 two_examples.1) two_examples.2 default_config == 2 # 128)%Q /\
  (accuracy (always_right 0 two_examples.1) two_examples.2 default_config < 1)%Q.
Proof.
  assert (Hpos : 0 < batch_size default_config) by reflexivity.
  assert (Hlen : Z.of_nat (length (always_right 0 two_examples.1))
                 < batch_size default_config) by reflexivity.
  split; [reflexivity|].
  split; [exact Hpos|]. split; [exact Hlen|]. split; [reflexivity|].
  apply (proj2 (proj2 (accuracy_of_perfect_and_partial_batches
                         (always_right 0 two_examples.1) two_examples.2
                         default_config eq_refl Hpos))).
  exact Hlen.
Defined.

(* ================================================================== *)
(** * The records of the sweep *)

Section SweepRecords.

Context `{Torch}.

Lemma dict_get_set_eq (d : dict) k v : dict_get (dict_set d k v) k = Some v.
Proof.
  induction d as [|[k' v'] d IH]; cbn.
  - rewrite String.eqb_refl. reflexivity.
  - destruct (String.eqb_spec k' k) as [->|Hne]; cbn.
    + rewrite String.eqb_refl. reflexivity.
    + destruct (String.eqb_spec k' k); [contradiction|exact IH].
Qed.

Lemma dict_get_set_ne (d : dict) k k' v :
  k <> k' -> dict_get (dict_set d k v) k' = dict_get d k'.
Proof.
  intros Hne. induction d as [|[k0 v0] d IH]; cbn.
  - destruct (String.eqb_spec k k'); [contradiction|reflexivity].
  - destruct (String.eqb_spec k0 k) as [->|Hne0]; cbn.
    + destruct (String.eqb_spec k k'); [contradiction|reflexivity].
    + destruct (String.eqb_spec k0 k'); [reflexivity|exact IH].
Qed.

Lemma fold_set_other (kvs : list (string * pyval)) : forall (d : dict) k,
  ~ In k (map fst kvs) ->
  dict_get (fold_left (fun d kv => dict_set d kv.1 kv.2) kvs d) k = dict_get d k.
Proof.
  induction kvs as [|[k0 v0] kvs IH]; intros d k Hnot; [reflexivity|].
  cbn [fold_left fst snd]. cbn in Hnot.
  rewrite IH by tauto. apply dict_get_set_ne. tauto.
Qed.

Lemma fold_set_member (kvs : list (string * pyval)) : forall (d : dict) k v,
  List.NoDup (map fst kvs) -> In (k, v) kvs ->
  dict_get (fold_left (fun d kv => dict_set d kv.1 kv.2) kvs d) k = Some v.
Proof.
  induction kvs as [|[k0 v0] kvs IH]; intros d k v Hnd Hin; [destruct Hin|].
  cbn [fold_left fst snd]. cbn in Hnd. inversion Hnd as [|? ? Hnot Hnd']; subst.
  destruct Hin as [[= -> ->]|Hin].
  - rewrite fold_set_other by exact Hnot. apply dict_get_set_eq.
  - apply IH; assumption.
Qed.

Lemma vars_keys_nodup c : List.NoDup (map fst (vars c)).
Proof.
  cbn. repeat (constructor; [cbn; intuition discriminate|]). constructor.
Qed.

(** X9. A pass of the sweep whose run returns statistics appends one
    record: the statistics with every entry of the configuration
    assigned into them.  The record holds the sequence length of the
    pass under 'input_length' and the lower-case model type under
    'model_type', every entry of the configuration the run left behind,
    and, under any other key, what the statistics held. *)
Theorem sweep_record_carries_configuration (end_ sl : Z) (acc : list dict)
    (c : Config) (d : dict) (c1 : Config) (tr : list event) :
  train (set_input_length c sl) = (Return (Some d), c1, tr) ->
  exists record,
    outcome_of (experiment_step end_ sl acc c) = Return (acc ++ [record]) /\
    dict_get record "input_length" = Some (VInt sl) /\
    dict_get record "model_type" = Some (VStr (Py.lower (model_type c))) /\
    (forall k v, In (k, v) (vars c1) -> dict_get record k = Some v) /\
    (forall k, ~ In k (map fst (vars c1)) -> dict_get record k = dict_get d k).
Proof.
  intros Htrain.
  assert (Hc1 : c1 = lowered (set_input_length c sl)).
  { rewrite <- config_of_train, Htrain. reflexivity. }
  rewrite experiment_step_eq, Htrain. cbv zeta. cbn [outcome_of fst].
  eexists. split; [reflexivity|].
  split; [apply fold_set_member; [apply vars_keys_nodup|]; subst c1; cbn; tauto|].
  split; [apply fold_set_member; [apply vars_keys_nodup|]; subst c1; cbn; tauto|].
  split.
  - intros k v Hin. apply fold_set_member; [apply vars_keys_nodup|exact Hin].
  - intros k Hnot. apply fold_set_other. exact Hnot.
Qed.

(** X10. [experiment] needs experiment mode: on a configuration whose
    experiment flag is off (and that a run accepts: model type in the
    three, batch_size > 0, learning_rate >= 0, train_steps >= 0,
    print_every not 0) it makes the whole first run, at length 50,
    saving model and accuracies, and then raises TypeError on the
    statistics that run did not return; no experiment statistics are
    saved. *)
Theorem experiment_needs_experiment_mode (cfg : Config) :
  class_of (Py.lower (model_type cfg)) <> None ->
  0 < batch_size cfg -> (0 <= learning_rate cfg)%Q ->
  0 <= train_steps cfg -> print_every cfg <> 0 -> experiment_flag cfg = false ->
  experiment cfg =
    (Raise TypeError, lowered (set_input_length cfg 50),
     log_of (train (set_input_length cfg 50))) /\
  outcome_of (train (set_input_length cfg 50)) = Return None.
Proof.
  intros Hcls Hbs Hlr Hts Hpe Hexp.
  assert (Hnone : outcome_of (train (set_input_length cfg 50)) = Return None).
  { destruct (train_outcome_cases (set_input_length cfg 50))
      as [[Hc _]|[(_ & Ht & _)|[(_ & _ & Ht & _)|[(_ & _ & Ht & _)|
          [(_ & _ & _ & Hp & _)|(_ & _ & _ & _ & x & Ho & Hx)]]]]];
      cbv zeta in *;
      cbn [set_input_length model_type batch_size learning_rate train_steps
           print_every] in *;
      try contradiction; try lia.
    { exfalso. destruct Ht as [Ht|[Ht|Ht]]; [lia| |lia].
      exact (Qlt_not_le _ _ Ht Hlr). }
    rewrite Ho. destruct x as [s|]; [|reflexivity].
    exfalso. cbn in Hx. destruct Hx as [_ Hx]. rewrite Hexp in Hx.
    specialize (Hx ltac:(discriminate)). discriminate. }
  split; [|exact Hnone].
  rewrite experiment_eq. cbv zeta. rewrite range_sweep_lengths. unfold sweep_lengths.
  rewrite for_each_cons, experiment_step_eq.
  pose proof (config_of_train (set_input_length cfg 50)) as Hc.
  destruct (train (set_input_length cfg 50)) as [[r c1] tr].
  cbn [outcome_of config_of log_of fst snd] in *. subst r c1. reflexivity.
Qed.

End SweepRecords.

Lemma sweep_record_carries_configuration_witness :
  let T := toy (replicate 8 two_examples) always_right false in
  exists record,
    outcome_of (@experiment_step T 500 50 [] (small_config "LSTM" 3)) = Return [record] /\
    dict_get record "input_length" = Some (VInt 50) /\
    dict_get record "model_type" = Some (VStr "lstm").
Proof.
  cbv zeta.
  destruct (@sweep_record_carries_configuration
              (toy (replicate 8 two_examples) always_right false)
              500 50 [] (small_config "LSTM" 3)
              (stats_of [2 # 2; 2 # 2; 2 # 2; 2 # 2]%Q (2 # 2)%Q)
              (lowered (set_input_length (small_config "LSTM" 3) 50))
              (log_of (@train (toy (replicate 8 two_examples) always_right false)
                         (set_input_length (small_config "LSTM" 3) 50)))
              eq_refl)
    as (record & Hout & Hlen & Hmt & _).
  exists record. split; [exact Hout|]. split; [exact Hlen|exact Hmt].
Defined.

Lemma experiment_needs_experiment_mode_witness :
  let T := toy (replicate 8 two_examples) always_right false in
  let cfg := mkConfig "rnn" 10 1 3 4 2 (1 # 1000) 3 10 "cpu" false 100 in
  outcome_of (@experiment T cfg) = Raise TypeError.
Proof.
  cbv zeta.
  destruct (@experiment_needs_experiment_mode
              (toy (replicate 8 two_examples) always_right false)
              (mkConfig "rnn" 10 1 3 4 2 (1 # 1000) 3 10 "cpu" false 100))
    as [Heq _]; [discriminate|cbn; lia|unfold Qle; cbn; lia|cbn; lia|discriminate|reflexivity|].
  rewrite Heq. reflexivity.
Defined.

(* ================================================================== *)
(** * What a completed sweep leaves behind *)

Section SweepEffects.

Context `{Torch}.

Lemma saved_files_app l1 l2 : saved_files (l1 ++ l2) = saved_files l1 ++ saved_files l2.
Proof. apply omap_app. Qed.

Lemma saved_files_loop_log cfg done : forall step, saved_files (loop_log cfg step done) = [].
Proof.
  induction done as [|[b y] rest IH]; intros step; [reflexivity|].
  cbn [loop_log]. rewrite !saved_files_app, IH.
  unfold report_lines. destruct (print_every cfg =? 0); [reflexivity|].
  destruct (_ =? 0); reflexivity.
Qed.

(** The files of a run that gets to its end. *)
Lemma train_saved_files cfg cls :
  class_of (Py.lower (model_type cfg)) = Some cls ->
  0 < batch_size cfg -> (0 <= learning_rate cfg)%Q ->
  0 <= train_steps cfg -> print_every cfg <> 0 ->
  saved_files (log_of (train cfg)) =
    [ (Py.lower (model_type cfg) ++ "_model.pt")%string;
      ("train_acc_" ++ Py.lower (model_type cfg) ++ Py.str_of_int (input_length cfg))%string ].
Proof.
  intros Hcls Hbs Hlr Hts Hpe.
  destruct (train_run cfg cls Hcls Hbs Hlr Hts) as (done & _ & _ & _ & _ & Heq).
  cbv zeta in Heq. rewrite Heq.
  destruct (Z.eqb_spec (print_every cfg) 0) as [|_]; [contradiction|]. cbn [andb].
  rewrite log_of_finish, !saved_files_app, saved_files_loop_log. reflexivity.
Qed.

Lemma sweep_saved_files sls : forall acc c cls,
  class_of (Py.lower (model_type c)) = Some cls ->
  0 < batch_size c -> (0 <= learning_rate c)%Q ->
  0 <= train_steps c -> print_every c <> 0 -> experiment_flag c = true ->
  saved_files (log_of (for_each (experiment_step 500) sls acc c)) =
    flat_map (pass_files (Py.lower (model_type c))) sls.
Proof.
  induction sls as [|sl sls IH]; intros acc c cls Hcls Hbs Hlr Hts Hpe Hexp; [reflexivity|].
  rewrite for_each_cons, experiment_step_eq.
  pose proof (train_saved_files (set_input_length c sl) cls Hcls Hbs Hlr Hts Hpe) as Hfiles.
  destruct (train_returns (set_input_length c sl) cls Hcls Hbs Hlr Hts Hpe Hexp)
    as (d & tr & Htrain).
  rewrite Htrain in *. cbv zeta. cbn [log_of snd] in *.
  rewrite !saved_files_app, Hfiles.
  rewrite (IH _ (lowered (set_input_length c sl)) cls); try assumption.
  2:{ cbn. rewrite lower_idem. exact Hcls. }
  cbn [flat_map pass_files app saved_files omap input_length set_input_length
       model_type lowered set_model_type].
  rewrite lower_idem. reflexivity.
Qed.

Lemma sweep_config sls : forall acc c cls,
  class_of (Py.lower (model_type c)) = Some cls ->
  0 < batch_size c -> (0 <= learning_rate c)%Q ->
  0 <= train_steps c -> print_every c <> 0 -> experiment_flag c = true ->
  config_of (for_each (experiment_step 500) sls acc c) =
    match last sls with
    | Some sl => set_input_length (lowered c) sl
    | None => c
    end.
Proof.
  induction sls as [|sl sls IH]; intros acc c cls Hcls Hbs Hlr Hts Hpe Hexp; [reflexivity|].
  rewrite for_each_cons, experiment_step_eq.
  destruct (train_returns (set_input_length c sl) cls Hcls Hbs Hlr Hts Hpe Hexp)
    as (d & tr & ->).
  cbv zeta. cbn [config_of fst snd].
  rewrite (IH _ (lowered (set_input_length c sl)) cls); try assumption.
  2:{ cbn. rewrite lower_idem. exact Hcls. }
  destruct sls as [|sl' sls]; [reflexivity|].
  change (last (sl :: sl' :: sls)) with (last (sl' :: sls)).
  destruct (last (sl' :: sls)) as [x|] eqn:Hlast.
  - unfold lowered, set_input_length, set_model_type. cbn. rewrite lower_idem. reflexivity.
  - apply last_None in Hlast. discriminate.
Qed.

Lemma append_inj (p a b : string) : (p ++ a = p ++ b)%string -> a = b.
Proof.
  induction p as [|ch p IH]; cbn; [tauto|]. intros [= Heq]. apply IH, Heq.
Qed.

(** X11. A sweep whose runs all return (model type in the three,
    batch_size > 0, learning_rate >= 0, train_steps >= 0, print_every
    not 0) leaves the shared configuration with input_length = 500, the
    last length of the sweep, and the model type in lower case, whatever
    input_length was parsed; nothing else is changed. *)
Theorem sweep_leaves_last_length (parsed : Config) (given : option string) :
  let config := parse_args parsed given in
  class_of (Py.lower (model_type config)) <> None ->
  0 < batch_size config -> (0 <= learning_rate config)%Q ->
  0 <= train_steps config -> print_every config <> 0 ->
  experiment_flag config = true ->
  outcome_of (main parsed given) = Return tt /\
  config_of (main parsed given) =
    set_input_length (set_model_type config (Py.lower (model_type config))) 500.
Proof.
  intros config Hcls Hbs Hlr Hts Hpe Hexp. unfold main. fold config. rewrite Hexp.
  rewrite experiment_eq. cbv zeta. rewrite range_sweep_lengths.
  destruct (class_of (Py.lower (model_type config))) as [cls|] eqn:Hc; [|congruence].
  destruct (for_each_returns sweep_lengths [] config cls Hc Hbs Hlr Hts Hpe Hexp)
    as (stats & Hout & _).
  pose proof (sweep_config sweep_lengths [] config cls Hc Hbs Hlr Hts Hpe Hexp) as Hcfg.
  cbn [outcome_of config_of fst snd]. rewrite Hout. split; [reflexivity|].
  exact Hcfg.
Qed.

(** X12. A sweep whose runs all return (model type in the three,
    batch_size > 0, learning_rate >= 0, train_steps >= 0, print_every
    not 0, experiment mode on) saves to three file names per length, in
    this order: the model, the accuracies of the run, the accumulated
    statistics.  The model and the statistics are saved under the same
    name in every pass, so each pass overwrites them; the ten accuracy
    arrays are saved under ten different names. *)
Theorem sweep_writes_three_files_per_length (cfg : Config) :
  let mt := Py.lower (model_type cfg) in
  class_of mt <> None ->
  0 < batch_size cfg -> (0 <= learning_rate cfg)%Q ->
  0 <= train_steps cfg -> print_every cfg <> 0 -> experiment_flag cfg = true ->
  saved_files (log_of (experiment cfg)) =
    flat_map (fun sl => [ (mt ++ "_model.pt")%string;
                          ("train_acc_" ++ mt ++ Py.str_of_int sl)%string;
                          ("experiment_stats_500" ++ mt ++ "500")%string ])
             [50; 100; 150; 200; 250; 300; 350; 400; 450; 500] /\
  List.NoDup (map (fun sl => ("train_acc_" ++ mt ++ Py.str_of_int sl)%string)
                  [50; 100; 150; 200; 250; 300; 350; 400; 450; 500]).
Proof.
  intros mt Hcls Hbs Hlr Hts Hpe Hexp. split.
  - rewrite experiment_eq. cbv zeta. rewrite range_sweep_lengths. cbn [log_of snd].
    destruct (class_of mt) as [cls|] eqn:Hc; [|congruence].
    apply (sweep_saved_files sweep_lengths [] cfg cls Hc Hbs Hlr Hts Hpe Hexp).
  - assert (Hinj : forall a b : string,
              ("train_acc_" ++ mt ++ a)%string = ("train_acc_" ++ mt ++ b)%string -> a = b).
    { intros a b Heq. apply append_inj in Heq. apply append_inj in Heq. exact Heq. }
    cbn [map].
    repeat (constructor;
            [cbn [In]; intros Hin;
             repeat (destruct Hin as [Hin|Hin]; [apply Hinj in Hin; discriminate|]);
             destruct Hin|]).
    constructor.
Qed.

End SweepEffects.

Lemma sweep_leaves_last_length_witness :
  let T := toy (replicate 8 two_examples) always_right false in
  input_length (small_config "RNN" 5) = 10 /\
  input_length (config_of (@main T (small_config "RNN" 5) None)) = 500 /\
  model_type (config_of (@main T (small_config "RNN" 5) None)) = "rnn".
Proof.
  cbv zeta. split; [reflexivity|].
  destruct (@sweep_leaves_last_length
              (toy (replicate 8 two_examples) always_right false)
              (small_config "RNN" 5) None)
    as [_ Hcfg]; [discriminate|cbn; lia|unfold Qle; cbn; lia|cbn; lia|discriminate|reflexivity|].
  rewrite Hcfg. split; reflexivity.
Defined.

Lemma sweep_writes_three_files_per_length_witness :
  let T := toy (replicate 8 two_examples) always_right false in
  length (saved_files (log_of (@experiment T (small_config "RNN" 5)))) = 30%nat.
Proof.
  cbv zeta.
  destruct (@sweep_writes_three_files_per_length
              (toy (replicate 8 two_examples) always_right false)
              (small_config "RNN" 5))
    as [Hfiles _]; [discriminate|cbn; lia|unfold Qle; cbn; lia|cbn; lia|discriminate|reflexivity|].
  rewrite Hfiles. reflexivity.
Defined.

(* ================================================================== *)
(** * The statistics of a run that stopped early *)

Section EarlyStopStatistics.

Context `{Torch}.

(** X13. A run in experiment mode that stops early reports a best
    accuracy of 1 and a last accuracy of 0.  With train_steps >= 0,
    enough batches and no batch larger than batch_size: if [train]
    returns statistics and recorded no accuracy at step train_steps,
    then 'best acc' is (a rational equal to) 1, attained at a step
    before train_steps, and 'last acc' is 0. *)
Theorem early_stop_statistics (cfg : Config) (stats : dict) (c' : Config)
    (log : list event) :
  train_steps cfg + 1 <= Z.of_nat (length (batches_of cfg)) ->
  0 < batch_size cfg ->
  Forall (fun b : batch => Z.of_nat (length b.2) <= batch_size cfg) (batches_of cfg) ->
  train cfg = (Return (Some stats), c', log) ->
  (forall a, ~ In (Set_acc (Z.to_nat (train_steps cfg)) a) log) ->
  exists best step,
    dict_get stats "best acc" = Some (VFloat best) /\ (best == 1)%Q /\
    dict_get stats "step best acc" = Some (VInt (Z.of_nat step)) /\
    Z.of_nat step < train_steps cfg /\
    dict_get stats "last acc" = Some (VFloat 0).
Proof.
  intros Henough Hbs Hall Htrain Hno.
  destruct (train_returns_stats _ _ _ _ Htrain) as ([cls Hcls] & Hts & _ & Hlr).
  destruct (train_run cfg cls Hcls Hbs Hlr Hts) as (done & Hpre & Hk & _ & Hend & Heq).
  cbv zeta in *. rewrite Htrain in Heq.
  set (n := Z.to_nat (train_steps cfg + 1)) in *.
  set (accs := accuracies cfg done) in *.
  set (train_acc := accs ++ zeros (n - length done)) in *.
  assert (Hpe : print_every cfg <> 0 \/ length done = 0%nat).
  { destruct (Z.eqb_spec (print_every cfg) 0) as [_|Hne]; [|tauto].
    destruct (Nat.ltb_spec 0 (length done)) as [_|Hz]; [discriminate|]. right. lia. }
  destruct (_ && _); [discriminate|].
  unfold finish in Heq. destruct (experiment_flag (lowered cfg)); [|discriminate].
  destruct (last train_acc) as [final|] eqn:Hlast; [|discriminate].
  assert (Hstats : stats = stats_of train_acc final) by congruence.
  assert (Hlog : log = (config_lines cfg ++ setup_log cfg cls ++ loop_log cfg 0 done)
                       ++ finish_log (lowered cfg) train_acc) by congruence.
  clear Heq Htrain. subst stats log.
  assert (Hlen : length accs = length done) by apply length_accuracies.
  (* no accuracy at step train_steps: fewer than train_steps + 1 passes *)
  assert (Hkn : (length done < n)%nat).
  { destruct (le_lt_dec n (length done)) as [Hge|Hlt]; [|exact Hlt]. exfalso.
    assert (Hex : exists a, accs !! Z.to_nat (train_steps cfg) = Some a).
    { apply lookup_lt_is_Some. subst n. lia. }
    destruct Hex as [a Ha]. apply (Hno a).
    rewrite !in_app_iff. left. right. right.
    apply loop_log_writes. split; [lia|]. rewrite Nat.sub_0_r. exact Ha. }
  assert (Hfinal : final = 0%Q).
  { subst train_acc. rewrite last_zeros in Hlast by lia. congruence. }
  (* the loop was left on a moving average of 1 *)
  assert (Hless : (length done < length (batches_of cfg))%nat) by (subst n; lia).
  destruct (Hend Hless) as [Hpos Hstop].
  destruct Hpe as [Hpe|Hz]; [|lia]. specialize (Hstop Hpe). unfold stops in Hstop.
  destruct (Z.eqb_spec (Z.of_nat (length done - 1)) (train_steps cfg)) as [Hc|_];
    [subst n; lia|].
  cbn [orb] in Hstop.
  assert (Hrange : Forall unit_range accs).
  { apply accuracies_unit_range; [exact Hbs|]. rewrite Hpre. apply Forall_take, Hall. }
  assert (H5 : (5 <= length done)%nat).
  { destruct (le_lt_dec 5 (length done)) as [Hge|Hlt]; [exact Hge|]. exfalso.
    rewrite moving_average_first_steps in Hstop; [discriminate| |lia].
    apply array_at_unit_range, Hrange. }
  assert (Hlastone : exists a, accs !! (length done - 1)%nat = Some a /\ (a == 1)%Q).
  { destruct (lookup_lt_is_Some_2 accs (length done - 1)%nat ltac:(lia)) as [a Ha].
    exists a. split; [exact Ha|].
    apply (proj1 (moving_average_one_iff (array_at n accs (length done - 1))
                    (length done - 1)
                    (array_at_unit_range n accs _ Hrange) ltac:(lia)
                    ltac:(rewrite length_array_at; lia)) Hstop (length done - 1)%nat a);
      [lia|lia|].
    rewrite lookup_array_at by lia. exact Ha. }
  destruct Hlastone as (a1 & Ha1 & Hone).
  (* the maximum of the array *)
  assert (Htrange : Forall unit_range train_acc).
  { subst train_acc. apply Forall_app. split; [exact Hrange|apply zeros_unit_range]. }
  destruct (argmax_spec train_acc) as (best & Hb & Hmax & Hfirst).
  { intros Hnil. rewrite Hnil in Hlast. discriminate. }
  assert (Hbest : (best == 1)%Q).
  { assert (Hle : (best <= 1)%Q).
    { rewrite Forall_lookup in Htrange. apply (Htrange _ _ Hb). }
    assert (Hge : (a1 <= best)%Q).
    { apply (Hmax (length done - 1)%nat). subst train_acc.
      apply lookup_app_l_Some. exact Ha1. }
    lra. }
  exists best, (Py.argmax train_acc).
  cbn [stats_of dict_get String.eqb Ascii.eqb Bool.eqb].
  rewrite (nth_lookup_Some _ _ _ _ Hb), Hfinal.
  split; [reflexivity|]. split; [exact Hbest|]. split; [reflexivity|].
  split; [|reflexivity].
  (* the first maximum is not after the last perfect batch *)
  destruct (le_lt_dec (Py.argmax train_acc) (length done - 1)) as [Hle|Hgt];
    [subst n; lia|].
  exfalso.
  assert (Hlt : (a1 < best)%Q).
  { apply (Hfirst (length done - 1)%nat a1 Hgt). subst train_acc.
    apply lookup_app_l_Some. exact Ha1. }
  lra.
Qed.

End EarlyStopStatistics.

Lemma early_stop_on_five_perfect_batches_witness :
  let T := toy (replicate 8 two_examples) always_right false in
  let cfg := small_config "rnn" 7 in
  0 <= train_steps cfg /\
  train_steps cfg + 1 <= Z.of_nat (length (@batches_of T cfg)) /\
  0 < batch_size cfg /\
  Forall (fun b : batch => Z.of_nat (length b.2) <= batch_size cfg) (@batches_of T cfg) /\
  recorded_accs (log_of (@train T cfg)) = [2 # 2; 2 # 2; 2 # 2; 2 # 2; 2 # 2]%Q /\
  exists done : list (batch * tensor2),
    List.filter is_batch_event (log_of (@train T cfg)) = batch_blocks cfg 0 done.
Proof.
  cbv zeta.
  assert (H1 : 0 <= train_steps (small_config "rnn" 7)) by (cbn; lia).
  assert (H2 : train_steps (small_config "rnn" 7) + 1
               <= Z.of_nat (length (@batches_of
                    (toy (replicate 8 two_examples) always_right false)
                    (small_config "rnn" 7)))) by (cbn; lia).
  assert (H3 : 0 < batch_size (small_config "rnn" 7)) by reflexivity.
  assert (H4 : Forall (fun b : batch =>
                         Z.of_nat (length b.2) <= batch_size (small_config "rnn" 7))
                 (@batches_of (toy (replicate 8 two_examples) always_right false)
                    (small_config "rnn" 7))).
  { cbn. repeat constructor; discriminate. }
  split; [exact H1|]. split; [exact H2|]. split; [exact H3|]. split; [exact H4|].
  split; [reflexivity|].
  destruct (@early_stop_on_five_perfect_batches
              (toy (replicate 8 two_examples) always_right false)
              (small_config "rnn" 7) H1 H2 H3 H4) as (done & Hlog & _).
  exists done. exact Hlog.
Defined.

Lemma early_stop_statistics_witness :
  let T := toy (replicate 8 two_examples) always_right false in
  let cfg := small_config "rnn" 7 in
  exists best step,
    dict_get (stats_of [2 # 2; 2 # 2; 2 # 2; 2 # 2; 2 # 2; 0; 0; 0]%Q 0%Q) "best acc"
      = Some (VFloat best) /\ (best == 1)%Q /\
    dict_get (stats_of [2 # 2; 2 # 2; 2 # 2; 2 # 2; 2 # 2; 0; 0; 0]%Q 0%Q) "step best acc"
      = Some (VInt (Z.of_nat step)) /\
    Z.of_nat step < train_steps cfg.
Proof.
  cbv zeta.
  destruct (@early_stop_statistics
              (toy (replicate 8 two_examples) always_right false)
              (small_config "rnn" 7)
              (stats_of [2 # 2; 2 # 2; 2 # 2; 2 # 2; 2 # 2; 0; 0; 0]%Q 0%Q)
              (lowered (small_config "rnn" 7))
              (log_of (@train (toy (replicate 8 two_examples) always_right false)
                         (small_config "rnn" 7))))
    as (best & step & Hb & Hone & Hs & Hlt & _).
  - cbn. lia.
  - reflexivity.
  - cbn. repeat constructor; discriminate.
  - reflexivity.
  - intros a Hin. vm_compute in Hin.
    repeat (destruct Hin as [Hin|Hin]; [discriminate|]). destruct Hin.
  - exists best, step. split; [exact Hb|]. split; [exact Hone|]. split; [exact Hs|exact Hlt].
Defined.
